(** * koa-session: the setup function and the per-request middleware of index.js

    A shallow embedding of [src/index.js]: the module function
    [session(opts, app)], [formatOpts], [extendContext], the three accessor
    properties it installs on the context prototype, and the middleware the
    module function returns.

    JavaScript objects live in a heap of records addressed by locations, so
    that the in-place updates of [formatOpts] and the closures that capture
    [opts] by reference are modelled with their aliasing.  Property reads
    and writes follow the prototype chain and run accessor functions, as
    [[Get]] and [[Set]] do.  The module is in strict mode. *)

From Stdlib Require Import ZArith List Lia.
From stdpp Require Import base option strings gmap.

Open Scope string_scope.

(** ** Values, property keys and objects *)

Definition loc := positive.

(** The two module-level symbols of index.js, and any other symbol. *)
Inductive symbol :=
| CONTEXT_SESSION
| _CONTEXT_SESSION
| other_symbol (n : nat).

Inductive pkey :=
| PStr (s : string)
| PSym (s : symbol).

Inductive value :=
| VUndefined
| VNull
| VBool (b : bool)
| VNum (n : Z)
| VStr (s : string)
| VRef (l : loc).

(** The code of a function object.  The functions index.js itself creates
    are named after the source; [host_fn] stands for any other function. *)
Inductive fcode :=
| util_encode
| util_decode
| uuid
| genid_prefixed (opts : value)      (* () => `${opts.prefix}${uuid()}` *)
| get_CONTEXT_SESSION (opts : value) (* get() of [CONTEXT_SESSION] *)
| get_session
| set_session
| get_sessionOptions
| session_middleware (opts : value)  (* async function session(ctx, next) *)
| host_fn (n : nat).

Inductive okind :=
| KPlain
| KFunction (c : fcode)
| KClass (n : nat).

(** A property is a data property as assignment creates it (writable,
    enumerable, configurable), or an accessor property. *)
Inductive prop :=
| Data (v : value)
| Accessor (get : option fcode) (set : option fcode) (configurable : bool).

Global Instance symbol_eq_dec : EqDecision symbol.
Proof. solve_decision. Defined.
Global Instance pkey_eq_dec : EqDecision pkey.
Proof. solve_decision. Defined.
Global Instance value_eq_dec : EqDecision value.
Proof. solve_decision. Defined.
Global Instance fcode_eq_dec : EqDecision fcode.
Proof. solve_decision. Defined.

Definition symbol_code (s : symbol) : nat :=
  match s with
  | CONTEXT_SESSION => 0
  | _CONTEXT_SESSION => 1
  | other_symbol n => S (S n)
  end.

Definition symbol_decode (n : nat) : symbol :=
  match n with
  | 0 => CONTEXT_SESSION
  | 1 => _CONTEXT_SESSION
  | S (S n) => other_symbol n
  end.

Global Instance symbol_countable : Countable symbol.
Proof.
  apply (inj_countable' symbol_code symbol_decode).
  by intros [].
Defined.

Global Instance pkey_countable : Countable pkey.
Proof.
  apply (inj_countable'
    (fun k => match k with PStr s => inl s | PSym s => inr s end)
    (fun x => match x with inl s => PStr s | inr s => PSym s end)).
  by intros [].
Defined.

Coercion PStr : string >-> pkey.

(** [chain] is the prototype chain of the object, nearest prototype first. *)
Record object := Object {
  kind : okind;
  chain : list loc;
  props : gmap pkey prop
}.

Abbreviation heap := (gmap loc object).

(** ** Primitive operations of the language *)

(** ToBoolean.  Numbers are modelled as integers, so NaN does not occur. *)
Definition truthy (v : value) : bool :=
  match v with
  | VUndefined | VNull => false
  | VBool b => b
  | VNum n => negb (n =? 0)%Z
  | VStr s => negb (String.eqb s "")
  | VRef _ => true
  end.

(** [v == null] *)
Definition eq_null (v : value) : bool :=
  match v with
  | VUndefined | VNull => true
  | _ => false
  end.

(** [typeof v === 'function'], which is also what [is.function] tests. *)
Definition is_function (h : heap) (v : value) : bool :=
  match v with
  | VRef l =>
      match h !! l with
      | Some o => match kind o with KPlain => false | _ => true end
      | None => false
      end
  | _ => false
  end.

(** [is.class(v)]: a function whose source text starts with [class]. *)
Definition is_class (h : heap) (v : value) : bool :=
  match v with
  | VRef l =>
      match h !! l with
      | Some o => match kind o with KClass _ => true | _ => false end
      | None => false
      end
  | _ => false
  end.

(** The own property [k] of the object at [l]. *)
Definition own (h : heap) (l : loc) (k : pkey) : option prop :=
  o ← h !! l; props o !! k.

(** [context.hasOwnProperty(k)] *)
Definition hasOwnProperty (h : heap) (l : loc) (k : pkey) : bool :=
  bool_decide (is_Some (own h l k)).

Fixpoint find_first (h : heap) (ls : list loc) (k : pkey) : option prop :=
  match ls with
  | [] => None
  | l :: ls' =>
      match own h l k with
      | Some p => Some p
      | None => find_first h ls' k
      end
  end.

(** The property [k] as seen from the object at [l]: its own, or the first
    one along its prototype chain. *)
Definition lookup_prop (h : heap) (l : loc) (k : pkey) : option prop :=
  match h !! l with
  | Some o => find_first h (l :: chain o) k
  | None => None
  end.

(** [k in o] for an object. *)
Definition has_property (h : heap) (l : loc) (k : pkey) : bool :=
  bool_decide (is_Some (lookup_prop h l k)).

(** Creates or overwrites the own data property [k] of the object at [l]. *)
Definition set_own (h : heap) (l : loc) (k : pkey) (p : prop) : heap :=
  match h !! l with
  | Some o => <[l := Object (kind o) (chain o) (<[k := p]> (props o))]> h
  | None => h
  end.

Definition fresh_loc (h : heap) : loc := fresh (dom h).

Definition alloc (h : heap) (o : object) : heap * loc :=
  (<[fresh_loc h := o]> h, fresh_loc h).

Definition empty_object : object := Object KPlain [] ∅.

(** ** Errors, completions and the state of a run *)

Inductive error :=
| TypeError (msg : string)
| AssertionError (msg : string)
| Thrown (v : value).

Inductive completion (A : Type) :=
| Normal (a : A)
| Throw (e : error).
Arguments Normal {A} a.
Arguments Throw {A} e.

(** What a run does that is visible from outside index.js: the calls it
    makes into lib/context.js and into the downstream chain. *)
Inductive event :=
| EvNew (ctx : value) (opts : value) (inst : loc) (* new ContextSession(ctx, opts) *)
| EvInitFromExternal (sess : value)              (* sess.initFromExternal() *)
| EvNext                                         (* next() *)
| EvCommit (sess : value)                        (* sess.commit() *)
| EvSessionGet (sess : value)                    (* sess.get() *)
| EvSessionSet (sess : value) (val : value)      (* sess.set(val) *)
| EvHostCall (n : nat).

Global Instance event_eq_dec : EqDecision event.
Proof. solve_decision. Defined.

(** Module-level function objects that index.js imports: they are
    allocated once, when the module is loaded. *)
Definition uuid_loc : loc := 1%positive.
Definition util_encode_loc : loc := 2%positive.
Definition util_decode_loc : loc := 3%positive.

Section Session.

(** [W] is everything outside the JavaScript heap: the backend store, the
    cookies of the response, the random source. *)
Context {W : Type}.

Record state := State {
  st_heap : heap;
  st_world : W;
  st_trace : list event
}.

(** The code this file does not contain.  lib/context.js (the class
    ContextSession), the downstream chain and the functions callers supply
    are taken as they come: each may change the heap and the world, and may
    throw. *)
Record host := Host {
  new_ContextSession : value -> value -> heap -> W -> heap * W * completion loc;
  initFromExternal : value -> heap -> W -> heap * W * completion unit;
  commit : value -> heap -> W -> heap * W * completion unit;
  session_get : value -> heap -> W -> heap * W * completion value;
  session_set : value -> value -> heap -> W -> heap * W * completion unit;
  uuid_v4 : W -> W * string;
  host_call : nat -> value -> list value -> heap -> W -> heap * W * completion value;
  host_toString : loc -> heap -> W -> heap * W * completion string
}.

Context (hst : host).

(** A computation; [None] is a run that needs more fuel.  Fuel bounds the
    depth of nested accessor calls only. *)
Definition M (A : Type) : Type := state -> option (state * completion A).

Definition ret {A} (a : A) : M A := fun s => Some (s, Normal a).
Definition throw {A} (e : error) : M A := fun s => Some (s, Throw e).
Definition out_of_fuel {A} : M A := fun _ => None.

Definition bind {A B} (m : M A) (f : A -> M B) : M B :=
  fun s =>
    match m s with
    | None => None
    | Some (s', Normal a) => f a s'
    | Some (s', Throw e) => Some (s', Throw e)
    end.

Notation "x <- m ;; k" := (bind m (fun x => k))
  (at level 100, m at next level, right associativity).
Notation "m ;;; k" := (bind m (fun _ => k))
  (at level 100, right associativity).

(** [try { body } catch (err) { handler(err) }] *)
Definition try_catch {A} (body : M A) (handler : error -> M A) : M A :=
  fun s =>
    match body s with
    | None => None
    | Some (s', Normal a) => Some (s', Normal a)
    | Some (s', Throw e) => handler e s'
    end.

(** [try { body } finally { fin }]: [fin] runs however [body] completes;
    when [fin] itself throws, its error replaces the completion of
    [body]. *)
Definition try_finally {A} (body : M A) (fin : M unit) : M A :=
  fun s =>
    match body s with
    | None => None
    | Some (s', c) =>
        match fin s' with
        | None => None
        | Some (s'', Normal _) => Some (s'', c)
        | Some (s'', Throw e) => Some (s'', Throw e)
        end
    end.

Definition emit (e : event) : M unit :=
  fun s => Some (State (st_heap s) (st_world s) (st_trace s ++ [e]), Normal tt).

Definition get_heap : M heap := fun s => Some (s, Normal (st_heap s)).

Definition put_heap (h : heap) : M unit :=
  fun s => Some (State h (st_world s) (st_trace s), Normal tt).

(** Runs a piece of the host on the heap and the world. *)
Definition lift_host {A} (f : heap -> W -> heap * W * completion A) : M A :=
  fun s =>
    let '(h, w, c) := f (st_heap s) (st_world s) in
    Some (State h w (st_trace s), c).

(** [assert(cond, msg)] *)
Definition assert (cond : bool) (msg : string) : M unit :=
  if cond then ret tt else throw (AssertionError msg).

(** ** Calls into the code outside index.js *)

(** [new ContextSession(this, opts)] *)
Definition construct (this : value) (opts : value) : M loc :=
  inst <- lift_host (new_ContextSession hst this opts) ;;
  emit (EvNew this opts inst) ;;;
  ret inst.

Definition call_initFromExternal (sess : value) : M unit :=
  emit (EvInitFromExternal sess) ;;; lift_host (initFromExternal hst sess).

Definition call_commit (sess : value) : M unit :=
  emit (EvCommit sess) ;;; lift_host (commit hst sess).

Definition call_session_get (sess : value) : M value :=
  emit (EvSessionGet sess) ;;; lift_host (session_get hst sess).

Definition call_session_set (sess val : value) : M unit :=
  emit (EvSessionSet sess val) ;;; lift_host (session_set hst sess val).

(** [uuid()] draws from the random source. *)
Definition call_uuid : M value :=
  fun s =>
    let '(w, u) := uuid_v4 hst (st_world s) in
    Some (State (st_heap s) w (st_trace s), Normal (VStr u)).

Definition digit_string (n : nat) : string :=
  String (Ascii.ascii_of_nat (48 + n)) "".

Fixpoint decimal_aux (fuel n : nat) (acc : string) : string :=
  match fuel with
  | 0 => acc
  | S fuel' =>
      let acc' := digit_string (n mod 10) ++ acc in
      if (n / 10 =? 0)%nat then acc' else decimal_aux fuel' (n / 10) acc'
  end.

Definition decimal (n : Z) : string :=
  if (n <? 0)%Z then "-" ++ decimal_aux (S (Z.to_nat (- n))) (Z.to_nat (- n)) ""
  else decimal_aux (S (Z.to_nat n)) (Z.to_nat n) "".

(** The string a template literal makes of a value. *)
Definition template_string (v : value) : M string :=
  match v with
  | VUndefined => ret "undefined"
  | VNull => ret "null"
  | VBool true => ret "true"
  | VBool false => ret "false"
  | VNum n => ret (decimal n)
  | VStr s => ret s
  | VRef l => lift_host (host_toString hst l)
  end.

(** ** The functions index.js creates *)

Section Bodies.

(** The property read, the property write (of strict code) and the call the
    bodies use. *)
Variable get : value -> pkey -> M value.
Variable put : value -> pkey -> value -> M unit.
Variable call : value -> value -> list value -> M value.

(** The getter of [CONTEXT_SESSION], index.js lines 132-138. *)
Definition CONTEXT_SESSION_getter (opts : value) (this : value) : M value :=
  cached <- get this (PSym _CONTEXT_SESSION) ;;
  if truthy cached then get this (PSym _CONTEXT_SESSION)
  else
    inst <- construct this opts ;;
    put this (PSym _CONTEXT_SESSION) (VRef inst) ;;;
    get this (PSym _CONTEXT_SESSION).

(** The getter of [session], lines 142-144. *)
Definition session_getter (this : value) : M value :=
  sess <- get this (PSym CONTEXT_SESSION) ;;
  call_session_get sess.

(** The setter of [session], lines 145-147. *)
Definition session_setter (this val : value) : M value :=
  sess <- get this (PSym CONTEXT_SESSION) ;;
  call_session_set sess val ;;;
  ret VUndefined.

(** The getter of [sessionOptions], lines 151-153. *)
Definition sessionOptions_getter (this : value) : M value :=
  sess <- get this (PSym CONTEXT_SESSION) ;;
  get sess "opts".

(** The generator of line 108: [() => `${opts.prefix}${uuid()}`]. *)
Definition genid_prefixed_body (opts : value) : M value :=
  p <- get opts "prefix" ;;
  ps <- template_string p ;;
  u <- call_uuid ;;
  us <- template_string u ;;
  ret (VStr (ps ++ us)).

(** The middleware, lines 38-50.  [await] of a call is the call run to its
    completion: a rejection is a throw. *)
Definition session_middleware_body (opts ctx next : value) : M value :=
  sess <- get ctx (PSym CONTEXT_SESSION) ;;
  store <- get sess "store" ;;
  (if truthy store then call_initFromExternal sess else ret tt) ;;;
  try_finally
    (try_catch
       (emit EvNext ;;; call next VUndefined [] ;;; ret VUndefined)
       (fun err => throw err))
    (autoCommit <- get opts "autoCommit" ;;
     if truthy autoCommit then call_commit sess else ret tt).

Definition run_fcode (c : fcode) (this : value) (args : list value) : M value :=
  match c with
  | uuid => call_uuid
  | genid_prefixed opts => genid_prefixed_body opts
  | get_CONTEXT_SESSION opts => CONTEXT_SESSION_getter opts this
  | get_session => session_getter this
  | set_session => session_setter this (nth 0 args VUndefined)
  | get_sessionOptions => sessionOptions_getter this
  | session_middleware opts =>
      session_middleware_body opts (nth 0 args VUndefined) (nth 1 args VUndefined)
  | util_encode => emit (EvHostCall 0) ;;; lift_host (host_call hst 0 this args)
  | util_decode => emit (EvHostCall 1) ;;; lift_host (host_call hst 1 this args)
  | host_fn n =>
      emit (EvHostCall (2 + n)) ;;; lift_host (host_call hst (2 + n) this args)
  end.

End Bodies.

(** ** Property read, property write and call *)

Definition not_an_object : error :=
  TypeError "Cannot read or set properties of undefined or null".

Fixpoint Get (fuel : nat) (v : value) (k : pkey) {struct fuel} : M value :=
  match v with
  | VUndefined | VNull => throw not_an_object
  | VRef l =>
      h <- get_heap ;;
      match lookup_prop h l k with
      | None => ret VUndefined
      | Some (Data x) => ret x
      | Some (Accessor None _ _) => ret VUndefined
      | Some (Accessor (Some g) _ _) =>
          match fuel with
          | 0 => out_of_fuel
          | S n => run_fcode (Get n) (Put n true) (Call n) g v []
          end
      end
  | _ =>
      (* a primitive: none of the names index.js reads is a property of
         the wrapper of a boolean, a number or a string *)
      ret VUndefined
  end

(** [v[k] = x].  A write that cannot be done throws in strict code and is
    dropped in sloppy code. *)
with Put (fuel : nat) (strict : bool) (v : value) (k : pkey) (x : value)
    {struct fuel} : M unit :=
  let reject : M unit :=
    if strict then throw (TypeError "Cannot assign to property") else ret tt in
  match v with
  | VUndefined | VNull => throw not_an_object
  | VRef l =>
      h <- get_heap ;;
      match lookup_prop h l k with
      | None | Some (Data _) => put_heap (set_own h l k (Data x))
      | Some (Accessor _ None _) => reject
      | Some (Accessor _ (Some f) _) =>
          match fuel with
          | 0 => out_of_fuel
          | S n => run_fcode (Get n) (Put n true) (Call n) f v [x] ;;; ret tt
          end
      end
  | _ => reject
  end

(** [f.call(this, ...args)] *)
with Call (fuel : nat) (f : value) (this : value) (args : list value)
    {struct fuel} : M value :=
  match f with
  | VRef l =>
      h <- get_heap ;;
      match option_map kind (h !! l) with
      | Some (KFunction c) =>
          match fuel with
          | 0 => out_of_fuel
          | S n => run_fcode (Get n) (Put n true) (Call n) c this args
          end
      | Some (KClass _) =>
          throw (TypeError "Class constructor cannot be invoked without 'new'")
      | _ => throw (TypeError "not a function")
      end
  | _ => throw (TypeError "not a function")
  end.

(** ** formatOpts, lines 61-113 *)

Definition new_object (o : object) : M value :=
  fun s =>
    let '(h, l) := alloc (st_heap s) o in
    Some (State h (st_world s) (st_trace s), Normal (VRef l)).

(** [typeof v === 'function'] and [is.function(v)] *)
Definition typeof_function (v : value) : M bool :=
  h <- get_heap ;; ret (is_function h v).

(** [k in v] *)
Definition has_in (k : pkey) (v : value) : M bool :=
  match v with
  | VRef l => h <- get_heap ;; ret (has_property h l k)
  | _ => throw (TypeError "Cannot use 'in' operator")
  end.

Section FormatOpts.

Variable fuel : nat.

(** [if (opts.k == null) opts.k = true;] *)
Definition default_true (opts : value) (k : string) : M unit :=
  v <- Get fuel opts k ;;
  if eq_null v then Put fuel true opts k (VBool true) else ret tt.

(** [assert(is.function(o.k), msg)] *)
Definition assert_function (o : value) (k : string) (msg : string) : M unit :=
  f <- Get fuel o k ;;
  b <- typeof_function f ;;
  assert b msg.

(** Lines 62-64. *)
Definition format_key (opts : value) : M value :=
  opts <- (if truthy opts then ret opts else new_object empty_object) ;;
  key <- Get fuel opts "key" ;;
  Put fuel true opts "key" (if truthy key then key else VStr "koa:sess") ;;;
  ret opts.

(** Line 68. *)
Definition format_maxAge (opts : value) : M unit :=
  b <- has_in "maxAge" opts ;;
  if negb b then
    maxage <- Get fuel opts "maxage" ;;
    Put fuel true opts "maxAge" maxage
  else ret tt.

(** Lines 71-74. *)
Definition format_defaults (opts : value) : M unit :=
  default_true opts "overwrite" ;;;
  default_true opts "httpOnly" ;;;
  default_true opts "signed" ;;;
  default_true opts "autoCommit".

(** Lines 79-84. *)
Definition format_codec (opts : value) : M unit :=
  encode <- Get fuel opts "encode" ;;
  b <- typeof_function encode ;;
  (if negb b then Put fuel true opts "encode" (VRef util_encode_loc) else ret tt) ;;;
  decode <- Get fuel opts "decode" ;;
  b <- typeof_function decode ;;
  if negb b then Put fuel true opts "decode" (VRef util_decode_loc) else ret tt.

(** Lines 86-91. *)
Definition check_store (opts : value) : M unit :=
  store <- Get fuel opts "store" ;;
  if truthy store then
    assert_function store "get" "store.get must be function" ;;;
    assert_function store "set" "store.set must be function" ;;;
    assert_function store "destroy" "store.destroy must be function"
  else ret tt.

(** Lines 93-97. *)
Definition check_externalKey (opts : value) : M unit :=
  externalKey <- Get fuel opts "externalKey" ;;
  if truthy externalKey then
    assert_function externalKey "get" "externalKey.get must be function" ;;;
    assert_function externalKey "set" "externalKey.set must be function"
  else ret tt.

(** [assert(is.function(ContextStore.prototype.k), msg)] *)
Definition assert_prototype_function (ContextStore : value) (k : string)
    (msg : string) : M unit :=
  prototype <- Get fuel ContextStore "prototype" ;;
  assert_function prototype k msg.

(** Lines 99-105. *)
Definition check_ContextStore (opts : value) : M unit :=
  ContextStore <- Get fuel opts "ContextStore" ;;
  if truthy ContextStore then
    h <- get_heap ;;
    assert (is_class h ContextStore) "ContextStore must be a class" ;;;
    assert_prototype_function ContextStore "get"
      "ContextStore.prototype.get must be function" ;;;
    assert_prototype_function ContextStore "set"
      "ContextStore.prototype.set must be function" ;;;
    assert_prototype_function ContextStore "destroy"
      "ContextStore.prototype.destroy must be function"
  else ret tt.

(** Lines 107-110. *)
Definition format_genid (opts : value) : M unit :=
  genid <- Get fuel opts "genid" ;;
  if negb (truthy genid) then
    prefix <- Get fuel opts "prefix" ;;
    if truthy prefix then
      f <- new_object (Object (KFunction (genid_prefixed opts)) [] ∅) ;;
      Put fuel true opts "genid" f
    else Put fuel true opts "genid" (VRef uuid_loc)
  else ret tt.

(** The call of [debug] on line 76 only logs and is left out. *)
Definition formatOpts (opts : value) : M value :=
  opts <- format_key opts ;;
  format_maxAge opts ;;;
  format_defaults opts ;;;
  format_codec opts ;;;
  check_store opts ;;;
  check_externalKey opts ;;;
  check_ContextStore opts ;;;
  format_genid opts ;;;
  ret opts.

End FormatOpts.

(** ** extendContext, lines 124-156 *)

(** An accessor descriptor as the object literal of lines 130-155 writes
    it: [get] is always there, [set] and [configurable] may be absent. *)
Record descriptor := Descriptor {
  d_get : fcode;
  d_set : option fcode;
  d_configurable : option bool
}.

(** What defining [d] makes of the current own property, [None] when the
    definition is refused.  A property that is not configurable is never
    replaced by a fresh accessor function; a field the descriptor leaves
    out keeps the value the current property has, and is [undefined] or
    [false] on a new property. *)
Definition apply_descriptor (current : option prop) (d : descriptor)
    : option prop :=
  match current with
  | None =>
      Some (Accessor (Some (d_get d)) (d_set d) (default false (d_configurable d)))
  | Some (Data _) =>
      Some (Accessor (Some (d_get d)) (d_set d) (default true (d_configurable d)))
  | Some (Accessor _ s true) =>
      Some (Accessor (Some (d_get d))
              (match d_set d with Some f => Some f | None => s end)
              (default true (d_configurable d)))
  | Some (Accessor _ _ false) => None
  end.

Definition defineProperty (l : loc) (k : pkey) (d : descriptor) : M unit :=
  h <- get_heap ;;
  match apply_descriptor (own h l k) d with
  | Some p => put_heap (set_own h l k p)
  | None => throw (TypeError "Cannot redefine property")
  end.

(** [Object.defineProperties(o, ds)]: string keys first, then symbols. *)
Fixpoint defineProperties (o : value) (ds : list (pkey * descriptor)) : M unit :=
  match o with
  | VRef l =>
      match ds with
      | [] => ret tt
      | (k, d) :: ds' => defineProperty l k d ;;; defineProperties o ds'
      end
  | _ => throw (TypeError "Object.defineProperties called on non-object")
  end.

Definition context_descriptors (opts : value) : list (pkey * descriptor) :=
  [ (PStr "session", Descriptor get_session (Some set_session) (Some true));
    (PStr "sessionOptions", Descriptor get_sessionOptions None None);
    (PSym CONTEXT_SESSION, Descriptor (get_CONTEXT_SESSION opts) None None) ].

(** [context.hasOwnProperty(k)] as a method call. *)
Definition call_hasOwnProperty (context : value) (k : pkey) : M bool :=
  match context with
  | VUndefined | VNull => throw not_an_object
  | VRef l => h <- get_heap ;; ret (hasOwnProperty h l k)
  | _ => ret false
  end.

Definition extendContext (context opts : value) : M unit :=
  b <- call_hasOwnProperty context (PSym CONTEXT_SESSION) ;;
  if b then ret tt
  else defineProperties context (context_descriptors opts).

(** ** The module function, lines 24-51 *)

(** [v && typeof v.use === 'function'] *)
Definition has_use (fuel : nat) (v : value) : M bool :=
  if truthy v then use <- Get fuel v "use" ;; typeof_function use
  else ret false.

Definition app_required : error :=
  TypeError "app instance required: `session(opts, app)`".

Definition session (fuel : nat) (opts app : value) : M value :=
  swap <- has_use fuel opts ;;
  let '(app, opts) := if (swap : bool) then (opts, app) else (app, opts) in
  ok <- has_use fuel app ;;
  if negb ok then throw app_required
  else
    opts <- formatOpts fuel opts ;;
    context <- Get fuel app "context" ;;
    extendContext context opts ;;;
    new_object (Object (KFunction (session_middleware opts)) [] ∅).

(** The middleware [session] returns, called with [ctx] and [next]. *)
Definition session_mw (fuel : nat) (opts ctx next : value) : M value :=
  session_middleware_body (Get fuel) (Call fuel) opts ctx next.

End Session.

Arguments state : clear implicits.
Arguments host : clear implicits.
Arguments M : clear implicits.

Notation "x <- m ;; k" := (bind m (fun x => k))
  (at level 100, m at next level, right associativity).
Notation "m ;;; k" := (bind m (fun _ => k))
  (at level 100, right associativity).

(** ** Predicates on heaps used by the statements *)

Definition is_data (p : prop) : Prop :=
  match p with Data _ => True | Accessor _ _ _ => False end.

Global Instance is_data_dec p : Decision (is_data p).
Proof. destruct p; simpl; apply _. Defined.

(** A heap of ordinary objects: no property is an accessor, so reading and
    writing properties runs no code. *)
Definition plain_heap (h : heap) : Prop :=
  map_Forall (fun _ o => map_Forall (fun _ p => is_data p) (props o)) h.

(** The value a property read gives on a plain heap. *)
Definition read (h : heap) (v : value) (k : pkey) : value :=
  match v with
  | VRef l =>
      match lookup_prop h l k with
      | Some (Data x) => x
      | _ => VUndefined
      end
  | _ => VUndefined
  end.

Definition is_nullish (v : value) : bool :=
  match v with VUndefined | VNull => true | _ => false end.

(** [h'] differs from [h] at most in the properties named in [K]: the same
    objects, of the same kinds, and every other property reads the same. *)
Definition writes_only (K : list pkey) (h h' : heap) : Prop :=
  (forall l, option_map kind (h' !! l) = option_map kind (h !! l))
  /\ (forall l k, k ∉ K -> lookup_prop h' l k = lookup_prop h l k).

(** [o.k] is a function, for each [k] of [ks]. *)
Definition all_functions (h : heap) (o : value) (ks : list string) : bool :=
  forallb (fun k : string => is_function h (read h o k)) ks.

(** The three shape checks of formatOpts, on a plain heap. *)
Definition store_ok (h : heap) (opts : value) : bool :=
  let store := read h opts "store" in
  if truthy store then all_functions h store ["get"; "set"; "destroy"] else true.

Definition externalKey_ok (h : heap) (opts : value) : bool :=
  let externalKey := read h opts "externalKey" in
  if truthy externalKey then all_functions h externalKey ["get"; "set"] else true.

Definition ContextStore_ok (h : heap) (opts : value) : bool :=
  let ContextStore := read h opts "ContextStore" in
  if truthy ContextStore then
    is_class h ContextStore
    && all_functions h (read h ContextStore "prototype") ["get"; "set"; "destroy"]
  else true.

Arguments read : simpl never.
Arguments set_own : simpl never.
Arguments lookup_prop : simpl never.

(** A run of checks that leaves the state as it is and passes exactly when
    [ok] holds. *)
Definition checks {W} (m : M W unit) (ok : bool) (s : state W) : Prop :=
  exists c, m s = Some (s, c)
    /\ (ok = true -> c = Normal tt)
    /\ (ok = false -> exists e, c = Throw e).


(** The properties the first half of formatOpts (lines 62-84) may write. *)
Definition format_keys : list pkey :=
  [PStr "key"; PStr "maxAge"; PStr "overwrite"; PStr "httpOnly";
   PStr "signed"; PStr "autoCommit"; PStr "encode"; PStr "decode"].

(** The four options that default to [true]. *)
Definition flag_options : list string :=
  ["overwrite"; "httpOnly"; "signed"; "autoCommit"].

(** Settles a decidable proposition on concrete data, such as [k ∉ ks] for
    given keys. *)
Ltac by_compute := apply (bool_decide_unpack _); by vm_compute.
Ltac not_elem := by_compute.

Definition shape_ok (h : heap) (opts : value) : bool :=
  store_ok h opts && externalKey_ok h opts && ContextStore_ok h opts.

(** [v && typeof v.use === 'function'] on a plain heap. *)
Definition uses (h : heap) (v : value) : bool :=
  truthy v && is_function h (read h v "use").

(** The argument [opts] of formatOpts is an object of the heap, or a falsy
    value, for which line 62 makes a new object. *)
Definition options_arg (h : heap) (opts : value) : Prop :=
  match opts with
  | VRef l => is_Some (h !! l)
  | _ => truthy opts = false
  end.

(** The object formatOpts fills in and returns. *)
Definition options_loc (h : heap) (opts : value) : loc :=
  match opts with
  | VRef l => l
  | _ => fresh_loc h
  end.

(** ** The parts of the middleware, named for the statements *)

(** Lines 39-40: the session engine of the request is fetched and, when it
    has a store, loaded. *)
Definition load_session {W} (hst : host W) (fuel : nat) (ctx : value)
    : M W value :=
  sess <- Get hst fuel ctx (PSym CONTEXT_SESSION) ;;
  store <- Get hst fuel sess "store" ;;
  (if truthy store then call_initFromExternal hst sess else ret tt) ;;;
  ret sess.

(** Line 42: [await next()]. *)
Definition downstream {W} (hst : host W) (fuel : nat) (next : value)
    : M W value :=
  emit EvNext ;;; Call hst fuel next VUndefined [] ;;; ret VUndefined.

(** Lines 46-48, the [finally] block. *)
Definition auto_commit {W} (hst : host W) (fuel : nat) (opts sess : value)
    : M W unit :=
  autoCommit <- Get hst fuel opts "autoCommit" ;;
  if truthy autoCommit then call_commit hst sess else ret tt.

(** The state in which a call into the host is made, and the one it
    leaves. *)
Definition emitted {W} (s : state W) (e : event) : state W :=
  State (st_heap s) (st_world s) (st_trace s ++ [e]).

Definition after_host {W A} (s : state W) (r : heap * W * completion A)
    : state W :=
  State r.1.1 r.1.2 (st_trace s).



(** How many times [commit] was called in a trace. *)
Definition is_commit (e : event) : bool :=
  match e with EvCommit _ => true | _ => false end.

Definition commits (tr : list event) : nat :=
  length (List.filter is_commit tr).

(** The completion of [try { ... } finally { fin }] when the [try] block
    completed with [c] and the [finally] block ran as [r]. *)
Definition finally_result {W A} (c : completion A)
    (r : option (state W * completion unit)) : option (state W * completion A) :=
  match r with
  | None => None
  | Some (s, Normal _) => Some (s, c)
  | Some (s, Throw e) => Some (s, Throw e)
  end.

(** The completion of the [try] block of the middleware, whose value is
    dropped. *)
Definition drop_value {A} (c : completion A) : completion value :=
  match c with
  | Normal _ => Normal VUndefined
  | Throw e => Throw e
  end.

(** ** Request contexts *)




(** The object at [ctx] sees the accessors extendContext installs for
    [opts], on itself or along its prototype chain. *)
Definition installed (h : heap) (ctx : loc) (opts : value) : Prop :=
  (exists set c, lookup_prop h ctx (PSym CONTEXT_SESSION)
     = Some (Accessor (Some (get_CONTEXT_SESSION opts)) set c))
  /\ (exists c, lookup_prop h ctx "session"
        = Some (Accessor (Some get_session) (Some set_session) c)).







(** ** An example application

    An application object with [use] and [context], an options object, a
    request context whose prototype is [app.context], two downstream
    chains (one that returns, one that throws), two stores (one complete,
    one without [set] and [destroy]), and an example of the code that is
    not in index.js: a ContextSession that keeps the options and the store
    it is given, and a commit that records a write in the world or fails. *)

Definition app_loc : loc := 10%positive.
Definition use_loc : loc := 11%positive.
Definition context_loc : loc := 12%positive.
Definition opts_loc : loc := 13%positive.
Definition next_loc : loc := 14%positive.
Definition failing_next_loc : loc := 15%positive.
Definition ctx_loc : loc := 16%positive.
Definition store_loc : loc := 17%positive.
Definition half_store_loc : loc := 18%positive.
Definition genid_loc : loc := 19%positive.

Definition function_object (c : fcode) : object := Object (KFunction c) [] ∅.

Definition plain_object (ps : list (pkey * prop)) : object :=
  Object KPlain [] (list_to_map ps).

Definition demo_heap (options : list (pkey * prop)) : heap :=
  list_to_map
    [ (app_loc, plain_object [ (PStr "use", Data (VRef use_loc));
                               (PStr "context", Data (VRef context_loc)) ]);
      (use_loc, function_object (host_fn 9));
      (context_loc, plain_object []);
      (opts_loc, plain_object options);
      (next_loc, function_object (host_fn 0));
      (failing_next_loc, function_object (host_fn 1));
      (ctx_loc, Object KPlain [context_loc] ∅);
      (store_loc, plain_object [ (PStr "get", Data (VRef use_loc));
                                 (PStr "set", Data (VRef use_loc));
                                 (PStr "destroy", Data (VRef use_loc)) ]);
      (half_store_loc, plain_object [ (PStr "get", Data (VRef use_loc)) ]);
      (genid_loc, function_object (host_fn 8));
      (uuid_loc, function_object uuid);
      (util_encode_loc, function_object util_encode);
      (util_decode_loc, function_object util_decode) ].

Definition demo_state (options : list (pkey * prop)) : state (list string) :=
  State (demo_heap options) [] [].

Definition handler_failed : error := Thrown (VStr "handler failed").
Definition store_down : error := Thrown (VStr "store down").

(** [commit_result] is what commit does to the world and how it completes. *)
Definition demo_host
    (commit_result : list string -> list string * completion unit)
    : host (list string) :=
  Host
    (fun this opts h w =>
       let '(h', l) :=
         alloc h (plain_object [ (PStr "opts", Data opts);
                                 (PStr "store", Data (read h opts "store")) ]) in
       (h', w, Normal l))
    (fun sess h w => (h, w, Normal tt))
    (fun sess h w => let '(w', c) := commit_result w in (h, w', c))
    (fun sess h w => (h, w, Normal VUndefined))
    (fun sess val h w => (h, w, Normal tt))
    (fun w => (w, "6f1d3c8e-2b7a-4e15-9c40-a1b2c3d4e5f6"))
    (fun n this args h w =>
       match n with
       | 3 => (h, w, Throw handler_failed)
       | _ => (h, w, Normal VUndefined)
       end)
    (fun l h w => (h, w, Normal "[object Object]")).

(** A commit that writes, and a commit whose backend fails. *)
Definition saving_host : host (list string) :=
  demo_host (fun w => ("save" :: w, Normal tt)).

Definition failing_host : host (list string) :=
  demo_host (fun w => (w, Throw store_down)).

(** The state a run ends in, [s] when it needs more fuel. *)
Definition state_of {W A} (r : option (state W * completion A)) (s : state W)
    : state W :=
  match r with
  | Some (s', _) => s'
  | None => s
  end.

(** The example application after [session(opts, app)]. *)
Definition demo_installed (hst : host (list string))
    (options : list (pkey * prop)) : state (list string) :=
  state_of (session hst 1 (VRef opts_loc) (VRef app_loc) (demo_state options))
    (demo_state options).

(** The example requests: the application installed with [options], then
    the load of the session of [ctx_loc] and the downstream chain [next]. *)
Definition demo_loaded (hst : host (list string))
    (options : list (pkey * prop)) : state (list string) :=
  state_of (load_session hst 1 (VRef ctx_loc) (demo_installed hst options))
    (demo_installed hst options).

Definition demo_handled (hst : host (list string))
    (options : list (pkey * prop)) (next : loc) : state (list string) :=
  state_of (downstream hst 1 (VRef next) (demo_loaded hst options))
    (demo_loaded hst options).

(** The session engine the example constructor allocates for [ctx_loc]. *)
Definition sess_loc : loc := 21%positive.

Definition manual_options : list (pkey * prop) :=
  [ (PStr "autoCommit", Data (VBool false)) ].

Definition store_options : list (pkey * prop) :=
  [ (PStr "store", Data (VRef store_loc)) ].

Definition half_store_options : list (pkey * prop) :=
  [ (PStr "store", Data (VRef half_store_loc)) ].

Definition empty_key_options : list (pkey * prop) :=
  [ (PStr "key", Data (VStr "")); (PStr "overwrite", Data (VBool false)) ].

Definition prefix_options : list (pkey * prop) :=
  [ (PStr "prefix", Data (VStr "sess:")) ].

(** The example after the read of [ctx[CONTEXT_SESSION]] alone. *)
Definition demo_fetched (hst : host (list string))
    (options : list (pkey * prop)) : state (list string) :=
  state_of (Get hst 1 (VRef ctx_loc) (PSym CONTEXT_SESSION)
              (demo_installed hst options))
    (demo_installed hst options).

(** ** Frames of the setup *)

(** The properties formatOpts may write on the options object. *)
Definition option_keys : list pkey := PStr "genid" :: format_keys.

(** [s'] differs from [s] at most in the properties [K] of the object at
    [l] and in objects allocated since: the world and the trace are the
    same, and every object of [s] has its kind, its prototype chain and
    all its other own properties. *)
Definition touches {W} (l : loc) (K : list pkey) (s s' : state W) : Prop :=
  st_world s' = st_world s
  /\ st_trace s' = st_trace s
  /\ (forall l', is_Some (st_heap s !! l') ->
        option_map kind (st_heap s' !! l') = option_map kind (st_heap s !! l')
        /\ option_map chain (st_heap s' !! l')
           = option_map chain (st_heap s !! l'))
  /\ (forall l' k, is_Some (st_heap s !! l') -> l' <> l \/ k ∉ K ->
        own (st_heap s') l' k = own (st_heap s) l' k).

(** Every run of [m] from a plain heap ends in a plain heap and touches
    only [K] at [l]. *)
Definition frames {W A} (l : loc) (K : list pkey) (m : M W A) : Prop :=
  forall s s' c,
    plain_heap (st_heap s) -> m s = Some (s', c) ->
    plain_heap (st_heap s') /\ touches l K s s'.

(** The example options after formatOpts alone. *)
Definition demo_formatted (hst : host (list string))
    (options : list (pkey * prop)) : state (list string) :=
  state_of (formatOpts hst 0 (VRef opts_loc) (demo_state options))
    (demo_state options).

Definition maxage_options : list (pkey * prop) :=
  [ (PStr "maxage", Data (VNum 86400000)) ].

Definition codec_options : list (pkey * prop) :=
  [ (PStr "encode", Data (VRef genid_loc)); (PStr "decode", Data (VStr "base64")) ].


(** The example heap with a property of the context made an accessor that
    is not configurable. *)
Definition locked_heap (k : string) : heap :=
  set_own (demo_heap []) context_loc k (Accessor None None false).



(** The objects of [h] are in [h'] with their kinds, and every property
    that is no option reads the same on them. *)
Definition options_frame (h h' : heap) : Prop :=
  (forall l, is_Some (h !! l) ->
     option_map kind (h' !! l) = option_map kind (h !! l))
  /\ (forall l k, is_Some (h !! l) -> k ∉ option_keys ->
        lookup_prop h' l k = lookup_prop h l k).

(** The example application without its [context]. *)
Definition contextless_heap : heap :=
  set_own (demo_heap []) app_loc "context" (Data VUndefined).
(** ** Facts about the heap operations *)

Lemma own_set_own_eq (h : heap) l k p :
  is_Some (h !! l) -> own (set_own h l k p) l k = Some p.
Proof.
  intros [o Ho]. unfold own, set_own. rewrite Ho.
  rewrite lookup_insert_eq. simpl. by rewrite lookup_insert_eq.
Qed.

Lemma own_set_own_ne (h : heap) l k p l' k' :
  l' <> l \/ k' <> k -> own (set_own h l k p) l' k' = own h l' k'.
Proof.
  intros Hne. unfold own, set_own.
  destruct (h !! l) as [o|] eqn:Ho; [|done].
  destruct (decide (l' = l)) as [->|Hl].
  - rewrite lookup_insert_eq, Ho. simpl.
    destruct Hne as [?|Hk]; [done|]. by rewrite lookup_insert_ne.
  - by rewrite lookup_insert_ne.
Qed.

Lemma set_own_lookup (h : heap) l k p l' :
  option_map kind (set_own h l k p !! l') = option_map kind (h !! l')
  /\ option_map chain (set_own h l k p !! l') = option_map chain (h !! l').
Proof.
  unfold set_own. destruct (h !! l) as [o|] eqn:Ho; [|done].
  destruct (decide (l' = l)) as [->|Hl].
  - by rewrite lookup_insert_eq, Ho.
  - by rewrite lookup_insert_ne.
Qed.

Lemma set_own_is_Some (h : heap) l k p l' :
  is_Some (set_own h l k p !! l') <-> is_Some (h !! l').
Proof.
  destruct (set_own_lookup h l k p l') as [Hk _].
  destruct (set_own h l k p !! l'), (h !! l'); simpl in Hk;
    split; intros [? ?]; try done; eauto.
Qed.

Lemma find_first_set_own_ne (h : heap) l k p ls k' :
  k' <> k -> find_first (set_own h l k p) ls k' = find_first h ls k'.
Proof.
  intros Hk. induction ls as [|l' ls IH]; simpl; [done|].
  rewrite own_set_own_ne by auto. by rewrite IH.
Qed.

Lemma lookup_prop_set_own_ne (h : heap) l k p l' k' :
  k' <> k -> lookup_prop (set_own h l k p) l' k' = lookup_prop h l' k'.
Proof.
  intros Hk. unfold lookup_prop.
  destruct (set_own_lookup h l k p l') as [_ Hc].
  destruct (set_own h l k p !! l') as [o1|], (h !! l') as [o2|];
    simpl in Hc; try done.
  injection Hc as ->. simpl. rewrite own_set_own_ne by auto.
  by rewrite find_first_set_own_ne.
Qed.

Lemma lookup_prop_set_own_eq (h : heap) l k p :
  is_Some (h !! l) -> lookup_prop (set_own h l k p) l k = Some p.
Proof.
  intros Hl. unfold lookup_prop.
  destruct (set_own h l k p !! l) as [o|] eqn:Ho.
  - simpl. by rewrite own_set_own_eq.
  - apply (set_own_is_Some h l k p l) in Hl. rewrite Ho in Hl. by destruct Hl.
Qed.

Lemma lookup_prop_is_Some (h : heap) l k p :
  lookup_prop h l k = Some p -> is_Some (h !! l).
Proof. unfold lookup_prop. destruct (h !! l); [eauto|done]. Qed.

Lemma is_function_set_own (h : heap) l k p v :
  is_function (set_own h l k p) v = is_function h v.
Proof.
  destruct v as [| | | | |l']; try done. simpl.
  destruct (set_own_lookup h l k p l') as [Hk _].
  destruct (set_own h l k p !! l'), (h !! l'); simpl in Hk; try done.
  by injection Hk as ->.
Qed.

Lemma is_class_set_own (h : heap) l k p v :
  is_class (set_own h l k p) v = is_class h v.
Proof.
  destruct v as [| | | | |l']; try done. simpl.
  destruct (set_own_lookup h l k p l') as [Hk _].
  destruct (set_own h l k p !! l'), (h !! l'); simpl in Hk; try done.
  by injection Hk as ->.
Qed.
(** ** Plain heaps *)

Lemma plain_heap_own (h : heap) l k p :
  plain_heap h -> own h l k = Some p -> exists x, p = Data x.
Proof.
  intros Hp Ho. unfold own in Ho.
  destruct (h !! l) as [o|] eqn:Hl; simpl in Ho; [|done].
  specialize (Hp l o Hl k p Ho). destruct p; [eauto|done].
Qed.

Lemma plain_heap_find_first (h : heap) ls k p :
  plain_heap h -> find_first h ls k = Some p -> exists x, p = Data x.
Proof.
  intros Hp. induction ls as [|l ls IH]; simpl; [done|].
  destruct (own h l k) as [q|] eqn:Ho; [|done].
  intros [= <-]. by eapply plain_heap_own.
Qed.

Lemma plain_heap_lookup_prop (h : heap) l k p :
  plain_heap h -> lookup_prop h l k = Some p -> exists x, p = Data x.
Proof.
  intros Hp. unfold lookup_prop. destruct (h !! l); [|done].
  by apply plain_heap_find_first.
Qed.

Lemma plain_heap_set_own (h : heap) l k x :
  plain_heap h -> plain_heap (set_own h l k (Data x)).
Proof.
  intros Hp. unfold set_own. destruct (h !! l) as [o|] eqn:Hl; [|done].
  apply map_Forall_insert_2; [|done]. simpl.
  apply map_Forall_insert_2; [done|]. by apply (Hp l o).
Qed.

Lemma fresh_loc_None (h : heap) : h !! fresh_loc h = None.
Proof. apply not_elem_of_dom. unfold fresh_loc. apply (is_fresh (dom h)). Qed.

Lemma plain_heap_alloc (h : heap) k c :
  plain_heap h -> plain_heap (alloc h (Object k c ∅)).1.
Proof.
  intros Hp. simpl. apply map_Forall_insert_2; [|done].
  simpl. apply map_Forall_empty.
Qed.

Lemma own_alloc_empty (h : heap) k c l key :
  own (alloc h (Object k c ∅)).1 l key = own h l key.
Proof.
  unfold own. simpl. destruct (decide (l = fresh_loc h)) as [->|Hl].
  - rewrite lookup_insert_eq, fresh_loc_None. done.
  - by rewrite lookup_insert_ne.
Qed.

Lemma find_first_alloc_empty (h : heap) k c ls key :
  find_first (alloc h (Object k c ∅)).1 ls key = find_first h ls key.
Proof.
  induction ls as [|l ls IH]; [done|].
  cbn [find_first]. by rewrite own_alloc_empty, IH.
Qed.

Lemma lookup_prop_alloc_old (h : heap) o l key :
  is_Some (h !! l) ->
  props o = ∅ ->
  lookup_prop (alloc h o).1 l key = lookup_prop h l key.
Proof.
  intros [o' Hl] Hprops. destruct o as [k c ps]. simpl in Hprops. subst ps.
  unfold lookup_prop.
  assert (l <> fresh_loc h) by (intros ->; by rewrite fresh_loc_None in Hl).
  replace ((alloc h (Object k c ∅)).1 !! l) with (h !! l)
    by (simpl; by rewrite lookup_insert_ne).
  rewrite Hl. apply (find_first_alloc_empty h k c (l :: chain o')).
Qed.

Lemma read_set_own_eq (h : heap) l k x :
  is_Some (h !! l) -> read (set_own h l k (Data x)) (VRef l) k = x.
Proof. intros Hl. unfold read. by rewrite lookup_prop_set_own_eq. Qed.

Lemma read_set_own_ne (h : heap) l k p v k' :
  k' <> k -> read (set_own h l k p) v k' = read h v k'.
Proof.
  intros Hk. destruct v; try done. unfold read.
  by rewrite lookup_prop_set_own_ne.
Qed.
(** ** Reading and writing on a plain heap *)

Section PlainSteps.

Context {W : Type} (hst : host W).

Lemma bind_Normal {A B} (m : M W A) (f : A -> M W B) s s' a :
  m s = Some (s', Normal a) -> bind m f s = f a s'.
Proof. intros H. unfold bind. by rewrite H. Qed.

Lemma bind_Throw {A B} (m : M W A) (f : A -> M W B) s s' e :
  m s = Some (s', Throw e) -> bind m f s = Some (s', Throw e).
Proof. intros H. unfold bind. by rewrite H. Qed.

Lemma Get_plain fuel v k h w tr :
  plain_heap h -> is_nullish v = false ->
  Get hst fuel v k (State h w tr) = Some (State h w tr, Normal (read h v k)).
Proof.
  intros Hp Hv. destruct v as [| | | | |l]; try done; try by destruct fuel.
  assert (Get hst fuel (VRef l) k (State h w tr) =
    match lookup_prop h l k with
    | Some (Data x) => Some (State h w tr, Normal x)
    | None => Some (State h w tr, Normal VUndefined)
    | Some (Accessor _ _ _) => Get hst fuel (VRef l) k (State h w tr)
    end) as ->.
  { destruct fuel; simpl; unfold bind, get_heap; simpl;
      destruct (lookup_prop h l k) as [[x|g st c]|]; done. }
  unfold read. destruct (lookup_prop h l k) as [[x|g st c]|] eqn:Hl; try done.
  by destruct (plain_heap_lookup_prop h l k _ Hp Hl).
Qed.

Lemma Get_nullish fuel v k s :
  is_nullish v = true -> Get hst fuel v k s = Some (s, Throw not_an_object).
Proof. by destruct v, fuel. Qed.

Lemma Put_plain fuel l k x h w tr :
  plain_heap h ->
  Put hst fuel true (VRef l) k x (State h w tr)
  = Some (State (set_own h l k (Data x)) w tr, Normal tt).
Proof.
  intros Hp.
  assert (Put hst fuel true (VRef l) k x (State h w tr) =
    match lookup_prop h l k with
    | Some (Data _) | None => Some (State (set_own h l k (Data x)) w tr, Normal tt)
    | Some (Accessor _ _ _) => Put hst fuel true (VRef l) k x (State h w tr)
    end) as ->.
  { destruct fuel; simpl; unfold bind, get_heap, put_heap; simpl;
      destruct (lookup_prop h l k) as [[y|g st c]|]; done. }
  destruct (lookup_prop h l k) as [[y|g st c]|] eqn:Hl; try done.
  by destruct (plain_heap_lookup_prop h l k _ Hp Hl).
Qed.

Lemma typeof_function_eq v (s : state W) :
  typeof_function v s = Some (s, Normal (is_function (st_heap s) v)).
Proof. done. Qed.

End PlainSteps.
(** ** Heaps that differ in a few properties *)

Lemma writes_only_refl K (h : heap) : writes_only K h h.
Proof. by split. Qed.

Lemma writes_only_trans K1 K2 (h1 h2 h3 : heap) :
  writes_only K1 h1 h2 -> writes_only K2 h2 h3 ->
  writes_only (K1 ++ K2) h1 h3.
Proof.
  intros [Hk1 Hl1] [Hk2 Hl2]. split.
  - intros l. by rewrite Hk2.
  - intros l k Hk. rewrite not_elem_of_app in Hk. destruct Hk.
    rewrite Hl2 by done. by apply Hl1.
Qed.

Lemma writes_only_set_own (h : heap) l k p :
  writes_only [k] h (set_own h l k p).
Proof.
  split.
  - intros l'. apply set_own_lookup.
  - intros l' k' Hk. apply lookup_prop_set_own_ne.
    intros ->. apply Hk. by left.
Qed.

Lemma writes_only_weaken K K' (h h' : heap) :
  K ⊆ K' -> writes_only K h h' -> writes_only K' h h'.
Proof.
  intros Hsub [Hk Hl]. split; [done|].
  intros l k Hn. apply Hl. intros Hin. apply Hn. by apply Hsub.
Qed.

Lemma writes_only_read K (h h' : heap) v k :
  writes_only K h h' -> k ∉ K -> read h' v k = read h v k.
Proof.
  intros [_ Hl] Hk. destruct v; try done. unfold read. by rewrite Hl.
Qed.

Lemma writes_only_is_Some K (h h' : heap) l :
  writes_only K h h' -> is_Some (h' !! l) <-> is_Some (h !! l).
Proof.
  intros [Hk _]. specialize (Hk l).
  destruct (h' !! l), (h !! l); simpl in Hk; split; intros [? ?];
    try done; eauto.
Qed.

Lemma writes_only_is_function K (h h' : heap) v :
  writes_only K h h' -> is_function h' v = is_function h v.
Proof.
  intros [Hk _]. destruct v as [| | | | |l]; try done. simpl.
  specialize (Hk l). destruct (h' !! l), (h !! l); simpl in Hk; try done.
  by injection Hk as ->.
Qed.

Lemma writes_only_is_class K (h h' : heap) v :
  writes_only K h h' -> is_class h' v = is_class h v.
Proof.
  intros [Hk _]. destruct v as [| | | | |l]; try done. simpl.
  specialize (Hk l). destruct (h' !! l), (h !! l); simpl in Hk; try done.
  by injection Hk as ->.
Qed.
(** ** The phases of formatOpts on a plain heap *)

Section FormatSteps.

Context {W : Type} (hst : host W).

Lemma default_true_plain fuel l (k : string) h (w : W) tr :
  plain_heap h -> is_Some (h !! l) ->
  exists h',
    default_true hst fuel (VRef l) k (State h w tr)
      = Some (State h' w tr, Normal tt)
    /\ plain_heap h' /\ writes_only [PStr k] h h'
    /\ read h' (VRef l) k
       = (if eq_null (read h (VRef l) k) then VBool true
          else read h (VRef l) k).
Proof.
  intros Hp Hl. unfold default_true.
  rewrite (bind_Normal _ _ _ _ _ (Get_plain hst fuel (VRef l) k h w tr Hp eq_refl)).
  destruct (eq_null (read h (VRef l) k)) eqn:He.
  - rewrite Put_plain by done. eexists. split; [done|].
    split; [by apply plain_heap_set_own|].
    split; [apply writes_only_set_own|]. by apply read_set_own_eq.
  - exists h. split; [done|]. split; [done|]. split; [apply writes_only_refl|done].
Qed.

Lemma format_key_plain fuel l h (w : W) tr :
  plain_heap h -> is_Some (h !! l) ->
  exists h',
    format_key hst fuel (VRef l) (State h w tr)
      = Some (State h' w tr, Normal (VRef l))
    /\ plain_heap h' /\ writes_only [PStr "key"] h h'
    /\ read h' (VRef l) "key"
       = (if truthy (read h (VRef l) "key") then read h (VRef l) "key"
          else VStr "koa:sess").
Proof.
  intros Hp Hl. unfold format_key. simpl truthy. cbv iota.
  unfold bind at 1. unfold ret at 1.
  rewrite (bind_Normal _ _ _ _ _ (Get_plain hst fuel (VRef l) "key" h w tr Hp eq_refl)).
  erewrite bind_Normal by (by apply Put_plain).
  eexists. split; [done|].
  split; [by apply plain_heap_set_own|].
  split; [apply writes_only_set_own|]. by apply read_set_own_eq.
Qed.

Lemma format_maxAge_plain fuel l h (w : W) tr :
  plain_heap h ->
  exists h',
    format_maxAge hst fuel (VRef l) (State h w tr)
      = Some (State h' w tr, Normal tt)
    /\ plain_heap h' /\ writes_only [PStr "maxAge"] h h'.
Proof.
  intros Hp. unfold format_maxAge, has_in.
  unfold bind at 1. unfold bind at 1. unfold get_heap, ret. simpl.
  destruct (has_property h l "maxAge"); simpl.
  - exists h. split; [done|]. split; [done|apply writes_only_refl].
  - rewrite (bind_Normal _ _ _ _ _ (Get_plain hst fuel (VRef l) "maxage" h w tr Hp eq_refl)).
    rewrite Put_plain by done. eexists. split; [done|].
    split; [by apply plain_heap_set_own|apply writes_only_set_own].
Qed.

Lemma format_codec_plain fuel l h (w : W) tr :
  plain_heap h ->
  exists h',
    format_codec hst fuel (VRef l) (State h w tr)
      = Some (State h' w tr, Normal tt)
    /\ plain_heap h' /\ writes_only [PStr "encode"; PStr "decode"] h h'.
Proof.
  intros Hp. unfold format_codec.
  rewrite (bind_Normal _ _ _ _ _ (Get_plain hst fuel (VRef l) "encode" h w tr Hp eq_refl)).
  erewrite bind_Normal by apply typeof_function_eq.
  assert (exists h1, (if negb (is_function h (read h (VRef l) "encode"))
            then Put hst fuel true (VRef l) "encode" (VRef util_encode_loc)
            else ret tt) (State h w tr) = Some (State h1 w tr, Normal tt)
          /\ plain_heap h1 /\ writes_only [PStr "encode"] h h1)
    as (h1 & E1 & Hp1 & Hw1).
  { destruct (is_function h _); simpl.
    - exists h. split; [done|]. split; [done|apply writes_only_refl].
    - rewrite Put_plain by done. eexists. split; [done|].
      split; [by apply plain_heap_set_own|apply writes_only_set_own]. }
  cbn [st_heap]. erewrite bind_Normal by exact E1.
  erewrite bind_Normal by (by apply Get_plain).
  erewrite bind_Normal by apply typeof_function_eq. cbn [st_heap].
  destruct (is_function h1 (read h1 (VRef l) "decode")); simpl.
  - exists h1. split; [done|]. split; [done|].
    eapply writes_only_weaken; [|done].
    intros k Hk. apply list_elem_of_singleton in Hk as ->. by left.
  - rewrite Put_plain by done. eexists. split; [done|].
    split; [by apply plain_heap_set_own|].
    apply (writes_only_trans [PStr "encode"] [PStr "decode"] h h1); [done|].
    apply writes_only_set_own.
Qed.

End FormatSteps.
(** ** The shape checks of formatOpts on a plain heap *)

Section CheckSteps.

Context {W : Type} (hst : host W).

Lemma truthy_not_nullish v : truthy v = true -> is_nullish v = false.
Proof. by destruct v. Qed.

Lemma assert_function_plain fuel o (k : string) msg h (w : W) tr :
  plain_heap h -> is_nullish o = false ->
  assert_function hst fuel o k msg (State h w tr)
  = Some (State h w tr,
          if is_function h (read h o k) then Normal tt
          else Throw (AssertionError msg)).
Proof.
  intros Hp Ho. unfold assert_function.
  erewrite bind_Normal by (by apply Get_plain).
  erewrite bind_Normal by apply typeof_function_eq. cbn [st_heap].
  by destruct (is_function h (read h o k)).
Qed.

Lemma checks_ret (s : state W) : checks (ret tt) true s.
Proof. exists (Normal tt). split; [done|]. split; [done|]. intros [=]. Qed.

Lemma checks_bind (m1 m2 : M W unit) b1 b2 s :
  checks m1 b1 s -> checks m2 b2 s -> checks (m1 ;;; m2) (b1 && b2) s.
Proof.
  intros (c1 & E1 & Ht1 & Hf1) (c2 & E2 & Ht2 & Hf2).
  destruct b1.
  - rewrite (Ht1 eq_refl) in E1. exists c2. split.
    + by erewrite bind_Normal by exact E1.
    + done.
  - destruct (Hf1 eq_refl) as [e ->]. exists (Throw e). split.
    + by erewrite bind_Throw by exact E1.
    + split; [done|]. intros _. by exists e.
Qed.

Lemma checks_assert_function fuel o (k : string) msg h (w : W) tr :
  plain_heap h -> is_nullish o = false ->
  checks (assert_function hst fuel o k msg) (is_function h (read h o k))
    (State h w tr).
Proof.
  intros Hp Ho. eexists. split; [by apply assert_function_plain|].
  destruct (is_function h (read h o k)); split; try done. by eexists.
Qed.

Lemma check_store_plain fuel l h (w : W) tr :
  plain_heap h ->
  checks (check_store hst fuel (VRef l)) (store_ok h (VRef l)) (State h w tr).
Proof.
  intros Hp. unfold check_store, store_ok, all_functions, forallb.
  set (store := read h (VRef l) "store").
  assert (Get hst fuel (VRef l) "store" (State h w tr)
          = Some (State h w tr, Normal store)) as E by (by apply Get_plain).
  destruct (truthy store) eqn:Ht.
  - pose proof (truthy_not_nullish _ Ht) as Hn.
    pose proof (checks_bind _ _ _ _ _
      (checks_assert_function fuel store "get" "store.get must be function" h w tr Hp Hn)
      (checks_bind _ _ _ _ _
        (checks_assert_function fuel store "set" "store.set must be function" h w tr Hp Hn)
        (checks_bind _ _ _ _ _
          (checks_assert_function fuel store "destroy" "store.destroy must be function" h w tr Hp Hn)
          (checks_ret _))))
      as (c & Ec & Hc).
    exists c. split; [|done].
    erewrite bind_Normal by exact E. rewrite Ht. rewrite <- Ec.
    unfold bind. destruct (assert_function hst fuel store "get" _ _) as [[s1 [[]|e1]]|];
      try done.
    destruct (assert_function hst fuel store "set" _ _) as [[s2 [[]|e2]]|];
      try done.
    by destruct (assert_function hst fuel store "destroy" _ _) as [[s3 [[]|e3]]|].
  - exists (Normal tt). split.
    + erewrite bind_Normal by exact E. by rewrite Ht.
    + split; [done|]. intros [=].
Qed.

Lemma check_externalKey_plain fuel l h (w : W) tr :
  plain_heap h ->
  checks (check_externalKey hst fuel (VRef l)) (externalKey_ok h (VRef l))
    (State h w tr).
Proof.
  intros Hp. unfold check_externalKey, externalKey_ok, all_functions, forallb.
  set (ek := read h (VRef l) "externalKey").
  assert (Get hst fuel (VRef l) "externalKey" (State h w tr)
          = Some (State h w tr, Normal ek)) as E by (by apply Get_plain).
  destruct (truthy ek) eqn:Ht.
  - pose proof (truthy_not_nullish _ Ht) as Hn.
    pose proof (checks_bind _ _ _ _ _
      (checks_assert_function fuel ek "get" "externalKey.get must be function" h w tr Hp Hn)
      (checks_bind _ _ _ _ _
        (checks_assert_function fuel ek "set" "externalKey.set must be function" h w tr Hp Hn)
        (checks_ret _)))
      as (c & Ec & Hc).
    exists c. split; [|done].
    erewrite bind_Normal by exact E. rewrite Ht. rewrite <- Ec.
    unfold bind. destruct (assert_function hst fuel ek "get" _ _) as [[s1 [[]|e1]]|];
      try done.
    by destruct (assert_function hst fuel ek "set" _ _) as [[s2 [[]|e2]]|].
  - exists (Normal tt). split.
    + erewrite bind_Normal by exact E. by rewrite Ht.
    + split; [done|]. intros [=].
Qed.

Lemma checks_assert_prototype_function fuel cs (k : string) msg h (w : W) tr :
  plain_heap h -> is_nullish cs = false ->
  checks (assert_prototype_function hst fuel cs k msg)
    (is_function h (read h (read h cs "prototype") k)) (State h w tr).
Proof.
  intros Hp Hn. unfold assert_prototype_function.
  set (proto := read h cs "prototype").
  assert (Get hst fuel cs "prototype" (State h w tr)
          = Some (State h w tr, Normal proto)) as E by (by apply Get_plain).
  destruct (is_nullish proto) eqn:Hproto.
  - exists (Throw not_an_object). split.
    + erewrite bind_Normal by exact E. unfold assert_function.
      by erewrite bind_Throw by (by apply Get_nullish).
    + replace (read h proto k) with VUndefined by (by destruct proto).
      split; [done|]. intros _. by eexists.
  - destruct (checks_assert_function fuel proto k msg h w tr Hp Hproto)
      as (c & Ec & Hc).
    exists c. split; [|done]. by erewrite bind_Normal by exact E.
Qed.

Lemma checks_assert b msg (s : state W) : checks (assert b msg) b s.
Proof.
  destruct b; eexists; (split; [done|]); split; try done. by eexists.
Qed.

Lemma check_ContextStore_plain fuel l h (w : W) tr :
  plain_heap h ->
  checks (check_ContextStore hst fuel (VRef l)) (ContextStore_ok h (VRef l))
    (State h w tr).
Proof.
  intros Hp. unfold check_ContextStore, ContextStore_ok, all_functions, forallb.
  set (cs := read h (VRef l) "ContextStore").
  assert (Get hst fuel (VRef l) "ContextStore" (State h w tr)
          = Some (State h w tr, Normal cs)) as E by (by apply Get_plain).
  destruct (truthy cs) eqn:Ht.
  - pose proof (truthy_not_nullish _ Ht) as Hn.
    pose proof (checks_bind _ _ _ _ _
      (checks_assert (is_class h cs) "ContextStore must be a class" (State h w tr))
      (checks_bind _ _ _ _ _
        (checks_assert_prototype_function fuel cs "get"
           "ContextStore.prototype.get must be function" h w tr Hp Hn)
        (checks_bind _ _ _ _ _
          (checks_assert_prototype_function fuel cs "set"
             "ContextStore.prototype.set must be function" h w tr Hp Hn)
          (checks_bind _ _ _ _ _
            (checks_assert_prototype_function fuel cs "destroy"
               "ContextStore.prototype.destroy must be function" h w tr Hp Hn)
            (checks_ret _)))))
      as (c & Ec & Hc).
    exists c. split; [|done].
    erewrite bind_Normal by exact E. rewrite Ht. rewrite <- Ec.
    unfold bind at 1 3. unfold get_heap. cbn [st_heap].
    unfold bind.
    destruct (assert (is_class h cs) _ _) as [[s0 [[]|e0]]|]; try done.
    destruct (assert_prototype_function hst fuel cs "get" _ _) as [[s1 [[]|e1]]|];
      try done.
    destruct (assert_prototype_function hst fuel cs "set" _ _) as [[s2 [[]|e2]]|];
      try done.
    by destruct (assert_prototype_function hst fuel cs "destroy" _ _)
      as [[s3 [[]|e3]]|].
  - exists (Normal tt). split.
    + erewrite bind_Normal by exact E. by rewrite Ht.
    + split; [done|]. intros [=].
Qed.

End CheckSteps.
(** ** formatOpts as a whole on a plain heap *)

Section FormatWhole.

Context {W : Type} (hst : host W).

Lemma format_defaults_plain fuel l h (w : W) tr :
  plain_heap h -> is_Some (h !! l) ->
  exists h',
    format_defaults hst fuel (VRef l) (State h w tr)
      = Some (State h' w tr, Normal tt)
    /\ plain_heap h'
    /\ writes_only (map PStr flag_options) h h'
    /\ forall k : string, k ∈ flag_options ->
         read h' (VRef l) k
         = (if eq_null (read h (VRef l) k) then VBool true
            else read h (VRef l) k).
Proof.
  intros Hp Hl. unfold format_defaults.
  destruct (default_true_plain hst fuel l "overwrite" h w tr Hp Hl)
    as (h1 & E1 & Hp1 & Hw1 & R1).
  pose proof (proj2 (writes_only_is_Some _ _ _ l Hw1) Hl) as Hl1.
  destruct (default_true_plain hst fuel l "httpOnly" h1 w tr Hp1 Hl1)
    as (h2 & E2 & Hp2 & Hw2 & R2).
  pose proof (proj2 (writes_only_is_Some _ _ _ l Hw2) Hl1) as Hl2.
  destruct (default_true_plain hst fuel l "signed" h2 w tr Hp2 Hl2)
    as (h3 & E3 & Hp3 & Hw3 & R3).
  pose proof (proj2 (writes_only_is_Some _ _ _ l Hw3) Hl2) as Hl3.
  destruct (default_true_plain hst fuel l "autoCommit" h3 w tr Hp3 Hl3)
    as (h4 & E4 & Hp4 & Hw4 & R4).
  exists h4. split.
  { erewrite bind_Normal by exact E1. erewrite bind_Normal by exact E2.
    by erewrite bind_Normal by exact E3. }
  split; [done|]. split.
  { apply (writes_only_trans [PStr "overwrite"] _ h h1 h4 Hw1).
    apply (writes_only_trans [PStr "httpOnly"] _ h1 h2 h4 Hw2).
    by apply (writes_only_trans [PStr "signed"] [PStr "autoCommit"] h2 h3 h4). }
  intros k Hk. unfold flag_options in Hk.
  repeat (apply elem_of_cons in Hk as [->|Hk]).
  - rewrite (writes_only_read _ _ _ _ _ Hw4), (writes_only_read _ _ _ _ _ Hw3),
      (writes_only_read _ _ _ _ _ Hw2); [done|..];
      intros ?%list_elem_of_singleton; done.
  - rewrite (writes_only_read _ _ _ _ _ Hw4), (writes_only_read _ _ _ _ _ Hw3);
      [|intros ?%list_elem_of_singleton; done..].
    rewrite R2.
    rewrite (writes_only_read _ _ _ _ _ Hw1); [done|].
    intros ?%list_elem_of_singleton; done.
  - rewrite (writes_only_read _ _ _ _ _ Hw4);
      [|intros ?%list_elem_of_singleton; done].
    rewrite R3.
    rewrite (writes_only_read _ _ _ _ _ Hw2), (writes_only_read _ _ _ _ _ Hw1);
      [done|..]; intros ?%list_elem_of_singleton; done.
  - rewrite R4.
    rewrite (writes_only_read _ _ _ _ _ Hw3), (writes_only_read _ _ _ _ _ Hw2),
      (writes_only_read _ _ _ _ _ Hw1);
      [done|..]; intros ?%list_elem_of_singleton; done.
  - by apply elem_of_nil in Hk.
Qed.

Lemma formatOpts_prefix fuel l h (w : W) tr :
  plain_heap h -> is_Some (h !! l) ->
  exists h',
    formatOpts hst fuel (VRef l) (State h w tr)
      = (check_store hst fuel (VRef l) ;;;
         check_externalKey hst fuel (VRef l) ;;;
         check_ContextStore hst fuel (VRef l) ;;;
         format_genid hst fuel (VRef l) ;;;
         ret (VRef l)) (State h' w tr)
    /\ plain_heap h' /\ is_Some (h' !! l)
    /\ writes_only format_keys h h'
    /\ read h' (VRef l) "key"
       = (if truthy (read h (VRef l) "key") then read h (VRef l) "key"
          else VStr "koa:sess")
    /\ forall k : string, k ∈ flag_options ->
         read h' (VRef l) k
         = (if eq_null (read h (VRef l) k) then VBool true
            else read h (VRef l) k).
Proof.
  intros Hp Hl. unfold formatOpts.
  destruct (format_key_plain hst fuel l h w tr Hp Hl)
    as (h1 & E1 & Hp1 & Hw1 & R1).
  destruct (format_maxAge_plain hst fuel l h1 w tr Hp1)
    as (h2 & E2 & Hp2 & Hw2).
  pose proof (proj2 (writes_only_is_Some _ _ _ l Hw1) Hl) as Hl1.
  pose proof (proj2 (writes_only_is_Some _ _ _ l Hw2) Hl1) as Hl2.
  destruct (format_defaults_plain fuel l h2 w tr Hp2 Hl2)
    as (h3 & E3 & Hp3 & Hw3 & R3).
  destruct (format_codec_plain hst fuel l h3 w tr Hp3)
    as (h4 & E4 & Hp4 & Hw4).
  pose proof (proj2 (writes_only_is_Some _ _ _ l Hw3) Hl2) as Hl3.
  pose proof (proj2 (writes_only_is_Some _ _ _ l Hw4) Hl3) as Hl4.
  exists h4. split.
  { erewrite bind_Normal by exact E1. erewrite bind_Normal by exact E2.
    erewrite bind_Normal by exact E3. by erewrite bind_Normal by exact E4. }
  split; [done|]. split; [done|]. split.
  { apply (writes_only_trans [PStr "key"] _ h h1 h4 Hw1).
    apply (writes_only_trans [PStr "maxAge"] _ h1 h2 h4 Hw2).
    by apply (writes_only_trans (map PStr flag_options)
                [PStr "encode"; PStr "decode"] h2 h3 h4). }
  split.
  { rewrite (writes_only_read _ _ _ _ _ Hw4), (writes_only_read _ _ _ _ _ Hw3),
      (writes_only_read _ _ _ _ _ Hw2); [done|..]; not_elem. }
  intros k Hk. rewrite (writes_only_read _ _ _ _ _ Hw4).
  2:{ unfold flag_options in Hk.
      repeat (apply elem_of_cons in Hk as [->|Hk]); try not_elem.
      by apply elem_of_nil in Hk. }
  rewrite (R3 k Hk).
  rewrite (writes_only_read _ _ _ _ _ Hw2), (writes_only_read _ _ _ _ _ Hw1);
    [done|..]; unfold flag_options in Hk;
    repeat (apply elem_of_cons in Hk as [->|Hk]); try not_elem;
    by apply elem_of_nil in Hk.
Qed.

Lemma formatOpts_falsy fuel opts h (w : W) tr :
  truthy opts = false ->
  formatOpts hst fuel opts (State h w tr)
  = formatOpts hst fuel (VRef (fresh_loc h))
      (State (alloc h empty_object).1 w tr).
Proof.
  intros Ht. unfold formatOpts, format_key. rewrite Ht. simpl truthy. cbv iota.
  unfold bind at 1 2. unfold new_object. cbn [st_heap st_world st_trace alloc].
  unfold bind at 9 10. unfold ret at 4. done.
Qed.

End FormatWhole.
(** ** The identifier generator formatOpts installs *)

Section Genid.

Context {W : Type} (hst : host W).

Lemma format_genid_plain fuel l h (w : W) tr :
  plain_heap h -> is_Some (h !! l) ->
  exists h',
    format_genid hst fuel (VRef l) (State h w tr)
      = Some (State h' w tr, Normal tt)
    /\ plain_heap h'
    /\ (forall l' k, is_Some (h !! l') -> k <> PStr "genid" ->
          lookup_prop h' l' k = lookup_prop h l' k)
    /\ (forall l', is_Some (h !! l') ->
          option_map kind (h' !! l') = option_map kind (h !! l'))
    /\ read h' (VRef l) "genid"
       = (if truthy (read h (VRef l) "genid") then read h (VRef l) "genid"
          else if truthy (read h (VRef l) "prefix") then VRef (fresh_loc h)
          else VRef uuid_loc)
    /\ (truthy (read h (VRef l) "genid") = false ->
        truthy (read h (VRef l) "prefix") = true ->
        option_map kind (h' !! fresh_loc h)
        = Some (KFunction (genid_prefixed (VRef l)))).
Proof.
  intros Hp Hl. unfold format_genid.
  erewrite bind_Normal by (by apply Get_plain).
  destruct (truthy (read h (VRef l) "genid")) eqn:Hg; cbn [negb].
  { exists h. do 5 (split; [done|]). done. }
  erewrite bind_Normal by (by apply Get_plain).
  destruct (truthy (read h (VRef l) "prefix")) eqn:Hpre.
  - unfold bind, new_object. cbn [st_heap st_world st_trace].
    set (o := Object (KFunction (genid_prefixed (VRef l))) [] ∅).
    assert (plain_heap (alloc h o).1) as Hp1 by (by apply plain_heap_alloc).
    assert (l <> fresh_loc h) as Hne
      by (intros ->; rewrite fresh_loc_None in Hl; by destruct Hl).
    assert (is_Some ((alloc h o).1 !! l)) as Hl1
      by (simpl; by rewrite lookup_insert_ne).
    destruct (alloc h o) as [h1 f] eqn:Ea.
    assert (f = fresh_loc h) as -> by (by injection Ea).
    assert (h1 = <[fresh_loc h := o]> h) as Eh1 by (by injection Ea).
    simpl in Hp1, Hl1. rewrite Put_plain by done.
    eexists. split; [done|]. split; [by apply plain_heap_set_own|].
    split; [|split; [|split]].
    + intros l' k Hl' Hk. rewrite lookup_prop_set_own_ne by done.
      subst h1. by apply (lookup_prop_alloc_old h o l' k).
    + intros l' Hl'. rewrite (proj1 (set_own_lookup _ _ _ _ _)).
      subst h1. rewrite lookup_insert_ne; [done|].
      intros <-. rewrite fresh_loc_None in Hl'. by destruct Hl'.
    + by rewrite read_set_own_eq.
    + intros _ _. rewrite (proj1 (set_own_lookup _ _ _ _ _)).
      subst h1. by rewrite lookup_insert_eq.
  - rewrite Put_plain by done.
    eexists. split; [done|]. split; [by apply plain_heap_set_own|].
    split; [|split; [|split]].
    + intros l' k _ Hk. by rewrite lookup_prop_set_own_ne.
    + intros l' _. apply set_own_lookup.
    + by rewrite read_set_own_eq.
    + done.
Qed.

End Genid.
Section FormatResult.

Context {W : Type} (hst : host W).

Lemma shape_ok_writes_only (h h' : heap) opts :
  writes_only format_keys h h' -> shape_ok h' opts = shape_ok h opts.
Proof.
  intros Hw. unfold shape_ok, store_ok, externalKey_ok, ContextStore_ok,
    all_functions, forallb.
  rewrite !(writes_only_is_function _ _ _ _ Hw),
    !(writes_only_is_class _ _ _ _ Hw).
  rewrite !(writes_only_read _ _ _ _ "store" Hw) by not_elem.
  rewrite !(writes_only_read _ _ _ _ "externalKey" Hw) by not_elem.
  rewrite !(writes_only_read _ _ _ _ "ContextStore" Hw) by not_elem.
  rewrite !(writes_only_read _ _ _ _ "prototype" Hw) by not_elem.
  rewrite !(writes_only_read _ _ _ _ "get" Hw) by not_elem.
  rewrite !(writes_only_read _ _ _ _ "set" Hw) by not_elem.
  rewrite !(writes_only_read _ _ _ _ "destroy" Hw) by not_elem.
  done.
Qed.

Lemma shape_checks_plain fuel l h (w : W) tr :
  plain_heap h ->
  checks (check_store hst fuel (VRef l) ;;;
          check_externalKey hst fuel (VRef l) ;;;
          check_ContextStore hst fuel (VRef l))
    (shape_ok h (VRef l)) (State h w tr).
Proof.
  intros Hp. unfold shape_ok. rewrite <- andb_assoc.
  apply checks_bind; [by apply check_store_plain|].
  apply checks_bind; [by apply check_externalKey_plain|].
  by apply check_ContextStore_plain.
Qed.

(** What formatOpts does to an options object of a plain heap: it writes
    the defaults, then either refuses the shape and throws, or installs the
    identifier generator and returns the same object. *)
Lemma formatOpts_plain fuel l h (w : W) tr :
  plain_heap h -> is_Some (h !! l) ->
  exists h1 s' c,
    formatOpts hst fuel (VRef l) (State h w tr) = Some (s', c)
    /\ plain_heap h1 /\ is_Some (h1 !! l)
    /\ writes_only format_keys h h1
    /\ read h1 (VRef l) "key"
       = (if truthy (read h (VRef l) "key") then read h (VRef l) "key"
          else VStr "koa:sess")
    /\ (forall k : string, k ∈ flag_options ->
         read h1 (VRef l) k
         = (if eq_null (read h (VRef l) k) then VBool true
            else read h (VRef l) k))
    /\ ((shape_ok h (VRef l) = false /\ s' = State h1 w tr
         /\ exists e, c = Throw e)
        \/ (shape_ok h (VRef l) = true /\ c = Normal (VRef l)
            /\ format_genid hst fuel (VRef l) (State h1 w tr)
               = Some (s', Normal tt))).
Proof.
  intros Hp Hl.
  destruct (formatOpts_prefix hst fuel l h w tr Hp Hl)
    as (h1 & E & Hp1 & Hl1 & Hw & Rk & Rf).
  destruct (shape_checks_plain fuel l h1 w tr Hp1) as (c1 & Ec & Ht & Hf).
  rewrite (shape_ok_writes_only h h1 _ Hw) in Ht, Hf.
  assert ((check_store hst fuel (VRef l) ;;;
           check_externalKey hst fuel (VRef l) ;;;
           check_ContextStore hst fuel (VRef l) ;;;
           format_genid hst fuel (VRef l) ;;; ret (VRef l)) (State h1 w tr)
          = ((check_store hst fuel (VRef l) ;;;
              check_externalKey hst fuel (VRef l) ;;;
              check_ContextStore hst fuel (VRef l)) ;;;
             format_genid hst fuel (VRef l) ;;; ret (VRef l)) (State h1 w tr))
    as Eassoc.
  { unfold bind.
    destruct (check_store hst fuel (VRef l) _) as [[s1 [[]|e1]]|]; try done.
    destruct (check_externalKey hst fuel (VRef l) _) as [[s2 [[]|e2]]|]; try done. }
  rewrite Eassoc in E. clear Eassoc.
  destruct (shape_ok h (VRef l)) eqn:Hok.
  - rewrite (Ht eq_refl) in Ec.
    erewrite bind_Normal in E by exact Ec.
    destruct (format_genid_plain hst fuel l h1 w tr Hp1 Hl1)
      as (h2 & Eg & _).
    erewrite bind_Normal in E by exact Eg.
    exists h1, (State h2 w tr), (Normal (VRef l)).
    split; [done|]. do 5 (split; [done|]). right. done.
  - destruct (Hf eq_refl) as [e ->].
    erewrite bind_Throw in E by exact Ec.
    exists h1, (State h1 w tr), (Throw e).
    split; [done|]. do 5 (split; [done|]). left. eauto.
Qed.

Lemma has_use_plain fuel v h (w : W) tr :
  plain_heap h ->
  has_use hst fuel v (State h w tr) = Some (State h w tr, Normal (uses h v)).
Proof.
  intros Hp. unfold has_use, uses. destruct (truthy v) eqn:Ht; [|done].
  erewrite bind_Normal by (apply Get_plain; [done|by apply truthy_not_nullish]).
  done.
Qed.

End FormatResult.
(** * The setup: formatOpts *)

Section SetupTheorems.

Context {W : Type} (hst : host W).

Lemma read_alloc_fresh (h : heap) k :
  read (alloc h empty_object).1 (VRef (fresh_loc h)) k = VUndefined.
Proof.
  unfold read, lookup_prop. simpl. rewrite lookup_insert_eq. simpl.
  unfold own. by rewrite lookup_insert_eq.
Qed.

Lemma format_genid_read fuel l h (w : W) tr s' (k : string) :
  plain_heap h -> is_Some (h !! l) -> k <> "genid" ->
  format_genid hst fuel (VRef l) (State h w tr) = Some (s', Normal tt) ->
  read (st_heap s') (VRef l) k = read h (VRef l) k.
Proof.
  intros Hp Hl Hk E.
  destruct (format_genid_plain hst fuel l h w tr Hp Hl) as (h' & E' & _ & Hlk & _).
  rewrite E in E'. injection E' as ->. simpl. unfold read.
  rewrite Hlk; [done|done|]. by intros [= ->].
Qed.

(** C4. Setup fails fast on a backend or resolver of the wrong shape: when
    [opts.store] is set but lacks a function [get], [set] or [destroy],
    when [opts.externalKey] is set but lacks a function [get] or [set], or
    when [opts.ContextStore] is set but is not a class or its prototype
    lacks a function [get], [set] or [destroy], formatOpts throws.  The
    module function then throws as well, having written nothing but the
    defaults into [opts]: no property is installed on any context and no
    middleware is returned. *)
Theorem formatOpts_rejects_wrong_shape fuel l h (w : W) tr :
  plain_heap h -> is_Some (h !! l) ->
  shape_ok h (VRef l) = false ->
  (exists s' e,
     formatOpts hst fuel (VRef l) (State h w tr) = Some (s', Throw e))
  /\ (uses h (VRef l) = false ->
      forall app, exists s' e,
        session hst fuel (VRef l) app (State h w tr) = Some (s', Throw e)
        /\ writes_only format_keys h (st_heap s')).
Proof.
  intros Hp Hl Hbad.
  destruct (formatOpts_plain hst fuel l h w tr Hp Hl)
    as (h1 & s' & c & E & _ & _ & Hw & _ & _ & [(_ & -> & e & ->)|(Hok & _)]);
    [|congruence].
  split; [by eauto|].
  intros Hu app. unfold session.
  erewrite bind_Normal by (by apply has_use_plain). rewrite Hu.
  erewrite bind_Normal by (by apply has_use_plain).
  destruct (uses h app); cbn [negb].
  - erewrite bind_Throw by exact E. by eauto.
  - eexists _, _. split; [done|]. apply writes_only_refl.
Qed.

(** C5, as the code has it. formatOpts applies the defaults: [key] becomes
    ["koa:sess"] when it is unset or any other falsy value and keeps a
    truthy value; [overwrite], [httpOnly], [signed] and [autoCommit] each
    become [true] when null or undefined and keep any other value, [false]
    included.  This holds for an options object as for a missing one, and
    whether or not the later shape checks throw. *)
Theorem formatOpts_defaults fuel opts h (w : W) tr :
  plain_heap h -> options_arg h opts ->
  exists s' c,
    formatOpts hst fuel opts (State h w tr) = Some (s', c)
    /\ (forall v, c = Normal v -> v = VRef (options_loc h opts))
    /\ read (st_heap s') (VRef (options_loc h opts)) "key"
       = (if truthy (read h opts "key") then read h opts "key"
          else VStr "koa:sess")
    /\ forall k : string, k ∈ flag_options ->
         read (st_heap s') (VRef (options_loc h opts)) k
         = (if eq_null (read h opts k) then VBool true else read h opts k).
Proof.
  intros Hp Harg.
  assert (forall l h0, plain_heap h0 -> is_Some (h0 !! l) ->
    exists s' c,
      formatOpts hst fuel (VRef l) (State h0 w tr) = Some (s', c)
      /\ (forall v, c = Normal v -> v = VRef l)
      /\ read (st_heap s') (VRef l) "key"
         = (if truthy (read h0 (VRef l) "key") then read h0 (VRef l) "key"
            else VStr "koa:sess")
      /\ forall k : string, k ∈ flag_options ->
           read (st_heap s') (VRef l) k
           = (if eq_null (read h0 (VRef l) k) then VBool true
              else read h0 (VRef l) k)) as Hobj.
  { intros l h0 Hp0 Hl0.
    destruct (formatOpts_plain hst fuel l h0 w tr Hp0 Hl0)
      as (h1 & s' & c & E & Hp1 & Hl1 & Hw & Rk & Rf & Hcase).
    exists s', c. split; [done|].
    destruct Hcase as [(_ & -> & e & ->)|(_ & -> & Eg)].
    - split; [done|]. by split.
    - split; [by intros v [= <-]|]. split.
      + by rewrite (format_genid_read fuel l h1 w tr s' "key" Hp1 Hl1).
      + intros k Hk.
        rewrite (format_genid_read fuel l h1 w tr s' k Hp1 Hl1); [by apply Rf| |done].
        unfold flag_options in Hk.
        repeat (apply elem_of_cons in Hk as [->|Hk]); try done.
        by apply elem_of_nil in Hk. }
  destruct opts as [| | | | |l];
    try (simpl in Harg; rewrite formatOpts_falsy by done;
         destruct (Hobj (fresh_loc h) (alloc h empty_object).1)
           as (s' & c & E & Hv & Rk & Rf);
         [by apply plain_heap_alloc | simpl; by rewrite lookup_insert_eq |];
         exists s', c; split; [done|]; split; [done|];
         rewrite read_alloc_fresh in Rk; split; [done|];
         intros k Hk; specialize (Rf k Hk);
         by rewrite read_alloc_fresh in Rf).
  by apply Hobj.
Qed.

End SetupTheorems.
Section GenidTheorem.

Context {W : Type} (hst : host W).

Lemma Call_uuid n l this args (s : state W) :
  option_map kind (st_heap s !! l) = Some (KFunction uuid) ->
  Call hst (S n) (VRef l) this args s
  = Some (State (st_heap s) (uuid_v4 hst (st_world s)).1 (st_trace s),
          Normal (VStr (uuid_v4 hst (st_world s)).2)).
Proof.
  intros Hk. simpl. unfold bind, get_heap. rewrite Hk. simpl.
  unfold call_uuid. by destruct (uuid_v4 hst (st_world s)).
Qed.

Lemma Call_genid_prefixed n f l p this args h (w : W) tr :
  plain_heap h ->
  option_map kind (h !! f) = Some (KFunction (genid_prefixed (VRef l))) ->
  read h (VRef l) "prefix" = VStr p ->
  Call hst (S n) (VRef f) this args (State h w tr)
  = Some (State h (uuid_v4 hst w).1 tr,
          Normal (VStr (p ++ (uuid_v4 hst w).2))).
Proof.
  intros Hp Hk Hpre. simpl. unfold bind at 1. unfold get_heap. cbn [st_heap].
  rewrite Hk. simpl. unfold genid_prefixed_body.
  erewrite bind_Normal by (by apply Get_plain). rewrite Hpre.
  unfold bind, template_string, ret, call_uuid. cbn [st_heap st_world st_trace].
  by destruct (uuid_v4 hst w).
Qed.

(** C6. Without a custom [genid], the generator formatOpts installs draws a
    random UUID; with a string [prefix] every identifier it makes is that
    prefix followed by the UUID drawn.  A [genid] the caller supplies is
    kept as it is, whatever [prefix] holds. *)
Theorem formatOpts_genid fuel l h (w : W) tr :
  plain_heap h -> is_Some (h !! l) -> shape_ok h (VRef l) = true ->
  option_map kind (h !! uuid_loc) = Some (KFunction uuid) ->
  exists s',
    formatOpts hst fuel (VRef l) (State h w tr) = Some (s', Normal (VRef l))
    /\ (truthy (read h (VRef l) "genid") = true ->
        read (st_heap s') (VRef l) "genid" = read h (VRef l) "genid")
    /\ (truthy (read h (VRef l) "genid") = false ->
        forall n this args w1 tr1 p,
          (read h (VRef l) "prefix" = VStr p
           \/ truthy (read h (VRef l) "prefix") = false /\ p = "") ->
          Call hst (S n) (read (st_heap s') (VRef l) "genid") this args
            (State (st_heap s') w1 tr1)
          = Some (State (st_heap s') (uuid_v4 hst w1).1 tr1,
                  Normal (VStr (p ++ (uuid_v4 hst w1).2)))).
Proof.
  intros Hp Hl Hok Huuid.
  destruct (formatOpts_plain hst fuel l h w tr Hp Hl)
    as (h1 & s' & c & E & Hp1 & Hl1 & Hw & _ & _ & [(Hbad & _)|(_ & -> & Eg)]);
    [congruence|].
  exists s'. split; [done|].
  destruct (format_genid_plain hst fuel l h1 w tr Hp1 Hl1)
    as (h2 & Eg' & Hp2 & Hlk & Hkind & Rg & Hclos).
  rewrite Eg in Eg'. injection Eg' as ->. cbn [st_heap].
  rewrite !(writes_only_read _ _ _ _ "genid" Hw) in Rg, Hclos by not_elem.
  rewrite !(writes_only_read _ _ _ _ "prefix" Hw) in Rg, Hclos by not_elem.
  assert (read h2 (VRef l) "prefix" = read h (VRef l) "prefix") as Rp.
  { rewrite <- (writes_only_read _ _ _ (VRef l) "prefix" Hw) by not_elem.
    unfold read. by rewrite Hlk. }
  assert (option_map kind (h2 !! uuid_loc) = Some (KFunction uuid)) as Hu2.
  { assert (option_map kind (h1 !! uuid_loc) = Some (KFunction uuid)) as Hu1
      by (by rewrite (proj1 Hw uuid_loc)).
    rewrite Hkind; [done|]. by destruct (h1 !! uuid_loc). }
  split.
  - intros Hg. by rewrite Hg in Rg.
  - intros Hg n this args w1 tr1 p Hpre. rewrite Hg in Rg.
    destruct (truthy (read h (VRef l) "prefix")) eqn:Ht.
    + destruct Hpre as [Hpre|[? _]]; [|done]. rewrite Rg.
      apply (Call_genid_prefixed n _ l p); [done| |by rewrite Rp]. by apply Hclos.
    + rewrite Rg.
      assert (p = "") as ->.
      { destruct Hpre as [Hpre|[_ ?]]; [|done]. rewrite Hpre in Ht.
        simpl in Ht. apply negb_false_iff, String.eqb_eq in Ht. done. }
      by rewrite (Call_uuid n uuid_loc this args (State h2 w1 tr1) Hu2).
Qed.

End GenidTheorem.
(** * The setup: the module function and extendContext *)

Section ModuleTheorems.

Context {W : Type} (hst : host W).


Lemma hasOwnProperty_set_own (h : heap) l k p :
  is_Some (h !! l) -> hasOwnProperty (set_own h l k p) l k = true.
Proof.
  intros Hl. unfold hasOwnProperty. rewrite own_set_own_eq by done.
  by apply bool_decide_eq_true_2.
Qed.

Lemma defineProperty_heap l k d (s s' : state W) :
  defineProperty l k d s = Some (s', Normal tt) ->
  exists p, st_heap s' = set_own (st_heap s) l k p
    /\ st_world s' = st_world s /\ st_trace s' = st_trace s.
Proof.
  unfold defineProperty, bind, get_heap, put_heap, throw.
  destruct (apply_descriptor _ d) as [p|]; [|done].
  intros [= <-]. by exists p.
Qed.

Lemma set_own_missing (h : heap) l k p :
  h !! l = None -> set_own h l k p = h.
Proof. intros Hl. unfold set_own. by rewrite Hl. Qed.

Lemma extendContext_object l opts (s : state W) :
  extendContext (VRef l) opts s
  = if hasOwnProperty (st_heap s) l (PSym CONTEXT_SESSION)
    then Some (s, Normal tt)
    else defineProperties (VRef l) (context_descriptors opts) s.
Proof.
  unfold extendContext, call_hasOwnProperty, bind, get_heap, ret.
  cbn [st_heap]. by destruct (hasOwnProperty _ _ _).
Qed.

(** C10. Installing is idempotent on the context prototype: a context that
    already has the own property [CONTEXT_SESSION] is left exactly as it
    is, so after one installation a second one, with whatever options,
    changes nothing. *)
Theorem extendContext_idempotent (context opts1 opts2 : value) (s s1 : state W) :
  (forall l, context = VRef l ->
     hasOwnProperty (st_heap s) l (PSym CONTEXT_SESSION) = true ->
     extendContext context opts1 s = Some (s, Normal tt))
  /\ (extendContext context opts1 s = Some (s1, Normal tt) ->
      extendContext context opts2 s1 = Some (s1, Normal tt)).
Proof.
  split.
  - intros l -> Hown. by rewrite extendContext_object, Hown.
  - destruct context as [| | | | |l]; try done.
    rewrite !extendContext_object.
    destruct (hasOwnProperty (st_heap s) l (PSym CONTEXT_SESSION)) eqn:Hown.
    { intros [= <-]. by rewrite Hown. }
    unfold context_descriptors, defineProperties.
    destruct s as [h w tr]. cbn [st_heap].
    destruct (h !! l) as [o|] eqn:Hl.
    + intros E. unfold bind in E.
      destruct (defineProperty l "session" _ _) as [[sa [[]|?]]|] eqn:Ea;
        try done.
      destruct (defineProperty l "sessionOptions" _ _) as [[sb [[]|?]]|] eqn:Eb;
        try done.
      destruct (defineProperty l (PSym CONTEXT_SESSION) _ _)
        as [[sc [[]|?]]|] eqn:Ec; try done.
      injection E as <-.
      apply defineProperty_heap in Ea as (pa & Ha & _).
      apply defineProperty_heap in Eb as (pb & Hb & _).
      apply defineProperty_heap in Ec as (pc & Hc & _).
      assert (is_Some (st_heap sb !! l)) as Hlb.
      { rewrite Hb, Ha. apply set_own_is_Some, set_own_is_Some.
        cbn [st_heap]. by rewrite Hl. }
      rewrite Hc. by rewrite hasOwnProperty_set_own.
    + assert (forall k d, defineProperty l k d (State h w tr)
                          = Some (State h w tr, Normal tt)) as Hdef.
      { intros k d. unfold defineProperty, bind, get_heap, put_heap.
        cbn [st_heap st_world st_trace].
        assert (own h l k = None) as -> by (unfold own; by rewrite Hl).
        simpl. by rewrite set_own_missing. }
      unfold bind. rewrite !Hdef. intros [= <-]. cbn [st_heap].
      assert (hasOwnProperty h l (PSym CONTEXT_SESSION) = false) as ->
        by (unfold hasOwnProperty, own; rewrite Hl; done).
      by rewrite !Hdef.
Qed.

End ModuleTheorems.
(** * The middleware *)

Section MiddlewareTheorems.

Context {W : Type} (hst : host W).

(** The middleware is its three parts in sequence: the load, then the
    downstream chain inside [try], then the [finally] block. *)
Lemma session_mw_parts fuel opts ctx next (s : state W) :
  session_mw hst fuel opts ctx next s
  = (sess <- load_session hst fuel ctx ;;
     try_finally (try_catch (downstream hst fuel next) (fun err => throw err))
       (auto_commit hst fuel opts sess)) s.
Proof.
  unfold session_mw, session_middleware_body, load_session, bind.
  destruct (Get hst fuel ctx (PSym CONTEXT_SESSION) s) as [[s1 [sess|e1]]|];
    [|done..].
  destruct (Get hst fuel sess "store" s1) as [[s2 [store|e2]]|]; [|done..].
  by destruct ((if truthy store then call_initFromExternal hst sess else ret tt) s2)
    as [[s3 [[]|e3]]|].
Qed.

Lemma try_catch_rethrow {A} (m : M W A) (s : state W) :
  try_catch m (fun err => throw err) s = m s.
Proof. unfold try_catch, throw. by destruct (m s) as [[s' [a|e]]|]. Qed.

Lemma Get_data fuel l k x (s : state W) :
  lookup_prop (st_heap s) l k = Some (Data x) ->
  Get hst fuel (VRef l) k s = Some (s, Normal x).
Proof.
  intros Hl. destruct fuel; simpl; unfold bind, get_heap; by rewrite Hl.
Qed.

Lemma Get_missing fuel l k (s : state W) :
  lookup_prop (st_heap s) l k = None ->
  Get hst fuel (VRef l) k s = Some (s, Normal VUndefined).
Proof.
  intros Hl. destruct fuel; simpl; unfold bind, get_heap; by rewrite Hl.
Qed.

Lemma call_commit_eq sess (s : state W) :
  call_commit hst sess s
  = Some (after_host (emitted s (EvCommit sess))
            (commit hst sess (st_heap s) (st_world s)),
          (commit hst sess (st_heap s) (st_world s)).2).
Proof.
  unfold call_commit, bind, emit, lift_host, after_host, emitted.
  cbn [st_heap st_world st_trace].
  by destruct (commit hst sess (st_heap s) (st_world s)) as [[h w] c].
Qed.

(** C1, as the code has it. With autoCommit enabled, commit is called once
    the downstream chain has completed, whether the chain returned or
    threw.  When commit returns, the completion of the chain is the
    completion of the middleware: an error the chain threw goes on to the
    caller.  When commit itself throws, its error is the one that reaches
    the caller. *)
Theorem commit_after_downstream fuel opts ctx next (s s1 s2 s3 : state W)
    sess c autoCommit :
  load_session hst fuel ctx s = Some (s1, Normal sess) ->
  downstream hst fuel next s1 = Some (s2, c) ->
  Get hst fuel opts "autoCommit" s2 = Some (s3, Normal autoCommit) ->
  truthy autoCommit = true ->
  session_mw hst fuel opts ctx next s
  = Some (after_host (emitted s3 (EvCommit sess))
            (commit hst sess (st_heap s3) (st_world s3)),
          match (commit hst sess (st_heap s3) (st_world s3)).2 with
          | Normal _ => c
          | Throw e => Throw e
          end).
Proof.
  intros Hload Hdown Hac Ht. rewrite session_mw_parts.
  erewrite bind_Normal by exact Hload.
  unfold try_finally. rewrite try_catch_rethrow, Hdown.
  unfold auto_commit. erewrite bind_Normal by exact Hac. rewrite Ht.
  rewrite call_commit_eq.
  by destruct (commit hst sess (st_heap s3) (st_world s3)).2.
Qed.

(** C2. With autoCommit off the middleware does nothing once the
    downstream chain has completed: it ends in the state the chain left and
    with the chain's completion, and calls commit nowhere.  So when loading
    the session and the chain write nothing outward and do not call commit,
    the request leaves the outward state as it found it. *)
Theorem no_commit_without_autoCommit fuel lo ctx next (s s1 s2 : state W)
    sess c autoCommit :
  load_session hst fuel ctx s = Some (s1, Normal sess) ->
  st_world s1 = st_world s -> commits (st_trace s1) = commits (st_trace s) ->
  downstream hst fuel next s1 = Some (s2, c) ->
  st_world s2 = st_world s1 -> commits (st_trace s2) = commits (st_trace s1) ->
  lookup_prop (st_heap s2) lo "autoCommit" = Some (Data autoCommit) ->
  truthy autoCommit = false ->
  exists s',
    session_mw hst fuel (VRef lo) ctx next s = Some (s', c)
    /\ s' = s2
    /\ st_world s' = st_world s
    /\ commits (st_trace s') = commits (st_trace s).
Proof.
  intros Hload Hw1 Hc1 Hdown Hw2 Hc2 Hac Ht. exists s2.
  split; [|split; [done|split; congruence]].
  rewrite session_mw_parts.
  erewrite bind_Normal by exact Hload.
  unfold try_finally. rewrite try_catch_rethrow, Hdown.
  unfold auto_commit. erewrite bind_Normal by (by apply Get_data).
  by rewrite Ht.
Qed.

End MiddlewareTheorems.
Section MiddlewareOrder.

Context {W : Type} (hst : host W).

Lemma call_initFromExternal_eq sess (s : state W) :
  call_initFromExternal hst sess s
  = Some (after_host (emitted s (EvInitFromExternal sess))
            (initFromExternal hst sess (st_heap s) (st_world s)),
          (initFromExternal hst sess (st_heap s) (st_world s)).2).
Proof.
  unfold call_initFromExternal, bind, emit, lift_host, after_host, emitted.
  cbn [st_heap st_world st_trace].
  by destruct (initFromExternal hst sess (st_heap s) (st_world s)) as [[h w] c].
Qed.

(** C7. The steps of a request come one after the other.  With a store,
    [initFromExternal] is called first and the downstream chain is called
    only in the state its completion left; a load that throws ends the
    request without the chain being called.  The [finally] block, and with
    it commit, runs in the state the completion of the chain left.  Without
    a store nothing is loaded: the chain is called right after the session
    engine is fetched. *)
Theorem load_before_chain_before_commit fuel opts ctx next
    (s s1 s2 : state W) sess store :
  Get hst fuel ctx (PSym CONTEXT_SESSION) s = Some (s1, Normal sess) ->
  Get hst fuel sess "store" s1 = Some (s2, Normal store) ->
  let r := initFromExternal hst sess (st_heap s2) (st_world s2) in
  let loaded :=
    if truthy store then after_host (emitted s2 (EvInitFromExternal sess)) r
    else s2 in
  (truthy store = true -> forall e, r.2 = Throw e ->
     session_mw hst fuel opts ctx next s = Some (loaded, Throw e))
  /\ ((truthy store = true -> r.2 = Normal tt) ->
      forall s4 c,
        Call hst fuel next VUndefined [] (emitted loaded EvNext) = Some (s4, c) ->
        session_mw hst fuel opts ctx next s
        = finally_result (drop_value c) (auto_commit hst fuel opts sess s4))
  /\ st_trace loaded
     = (st_trace s2 ++ if truthy store then [EvInitFromExternal sess] else [])%list.
Proof.
  intros Hsess Hstore r loaded.
  assert (
    session_mw hst fuel opts ctx next s
    = ((if truthy store then call_initFromExternal hst sess else ret tt) ;;;
       try_finally (try_catch (downstream hst fuel next) (fun err => throw err))
         (auto_commit hst fuel opts sess)) s2) as Hmw.
  { unfold session_mw, session_middleware_body.
    erewrite bind_Normal by exact Hsess.
    by erewrite bind_Normal by exact Hstore. }
  split; [|split].
  - intros Ht e He. rewrite Hmw. subst loaded. rewrite Ht.
    erewrite bind_Throw; [done|]. rewrite call_initFromExternal_eq.
    fold r. by rewrite He.
  - intros Hnormal s4 c Hcall. rewrite Hmw.
    assert ((if truthy store then call_initFromExternal hst sess else ret tt) s2
            = Some (loaded, Normal tt)) as Hl.
    { subst loaded. destruct (truthy store); [|done].
      rewrite call_initFromExternal_eq. fold r. by rewrite Hnormal. }
    erewrite bind_Normal by exact Hl.
    unfold try_finally. rewrite try_catch_rethrow.
    unfold downstream. unfold bind at 1. unfold emit at 1.
    change (State (st_heap loaded) (st_world loaded) (st_trace loaded ++ [EvNext]))
      with (emitted loaded EvNext).
    unfold bind at 1. rewrite Hcall.
    unfold finally_result, drop_value, ret.
    destruct c as [v|e]; by destruct (auto_commit hst fuel opts sess s4)
      as [[s5 [[]|e5]]|].
  - subst loaded. destruct (truthy store); [done|]. by rewrite app_nil_r.
Qed.

End MiddlewareOrder.
(** * The session engine of a request context *)

Section ContextSession.

Context {W : Type} (hst : host W).

Lemma Get_accessor n l k g set c (s : state W) :
  lookup_prop (st_heap s) l k = Some (Accessor (Some g) set c) ->
  Get hst (S n) (VRef l) k s
  = run_fcode hst (Get hst n) (Put hst n true) (Call hst n) g (VRef l) [] s.
Proof. intros Hl. simpl. unfold bind at 1. unfold get_heap. by rewrite Hl. Qed.

Lemma Put_setter n strict l k get f c x (s : state W) :
  lookup_prop (st_heap s) l k = Some (Accessor get (Some f) c) ->
  Put hst (S n) strict (VRef l) k x s
  = (run_fcode hst (Get hst n) (Put hst n true) (Call hst n) f (VRef l) [x] ;;;
     ret tt) s.
Proof. intros Hl. simpl. unfold bind at 1. unfold get_heap. by rewrite Hl. Qed.


Lemma Put_no_setter fuel strict l k get c x (s : state W) :
  lookup_prop (st_heap s) l k = Some (Accessor get None c) ->
  Put hst fuel strict (VRef l) k x s
  = Some (s, if strict then Throw (TypeError "Cannot assign to property")
             else Normal tt).
Proof.
  intros Hl. destruct fuel, strict; simpl; unfold bind, get_heap;
    by rewrite Hl.
Qed.




(** A later read: the cached engine comes back, nothing else happens. *)
Lemma getter_cached n ctx opts inst (s : state W) :
  lookup_prop (st_heap s) ctx (PSym _CONTEXT_SESSION) = Some (Data (VRef inst)) ->
  CONTEXT_SESSION_getter hst (Get hst n) (Put hst n true) opts (VRef ctx) s
  = Some (s, Normal (VRef inst)).
Proof.
  intros Hslot. unfold CONTEXT_SESSION_getter.
  erewrite bind_Normal by (by apply Get_data). cbn [truthy].
  by apply Get_data.
Qed.

End ContextSession.
Section Accesses.

Context {W : Type} (hst : host W).






End Accesses.
Section AccessSeries.

Context {W : Type} (hst : host W).


Lemma call_session_get_eq sess (s : state W) :
  call_session_get hst sess s
  = Some (after_host (emitted s (EvSessionGet sess))
            (session_get hst sess (st_heap s) (st_world s)),
          (session_get hst sess (st_heap s) (st_world s)).2).
Proof.
  unfold call_session_get, bind, emit, lift_host, after_host, emitted.
  cbn [st_heap st_world st_trace].
  by destruct (session_get hst sess (st_heap s) (st_world s)) as [[h w] c].
Qed.

Lemma call_session_set_eq sess val (s : state W) :
  call_session_set hst sess val s
  = Some (after_host (emitted s (EvSessionSet sess val))
            (session_set hst sess val (st_heap s) (st_world s)),
          (session_set hst sess val (st_heap s) (st_world s)).2).
Proof.
  unfold call_session_set, bind, emit, lift_host, after_host, emitted.
  cbn [st_heap st_world st_trace].
  by destruct (session_set hst sess val (st_heap s) (st_world s)) as [[h w] c].
Qed.




End AccessSeries.
Section ContextSessionTheorems.

Context {W : Type} (hst : host W).


Lemma defineProperties_own l ds k (s s' : state W) :
  k ∉ map fst ds ->
  defineProperties (VRef l) ds s = Some (s', Normal tt) ->
  own (st_heap s') l k = own (st_heap s) l k.
Proof.
  revert s. induction ds as [|[k0 d] ds IH]; intros s Hk; simpl.
  - by intros [= <-].
  - apply not_elem_of_cons in Hk as [Hne Hk].
    unfold bind at 1.
    destruct (defineProperty l k0 d s) as [[s1 [[]|e]]|] eqn:E; [|done..].
    intros E'. rewrite (IH s1 Hk E').
    apply defineProperty_heap in E as (p & -> & _).
    apply own_set_own_ne. by right.
Qed.

(** C8. [sessionOptions] is read-only.  extendContext defines it with a
    getter and no setter, and not configurable.  On a request context that
    sees this accessor, a read gives the options the session engine of the
    request holds, [ctx[CONTEXT_SESSION].opts]; an assignment changes
    nothing, it throws in strict code and is dropped in sloppy code, so
    the next read gives the same options. *)
Theorem sessionOptions_read_only :
  (forall l opts (s s' : state W),
     is_Some (st_heap s !! l) ->
     own (st_heap s) l (PSym CONTEXT_SESSION) = None ->
     own (st_heap s) l "sessionOptions" = None ->
     extendContext (VRef l) opts s = Some (s', Normal tt) ->
     own (st_heap s') l "sessionOptions"
     = Some (Accessor (Some get_sessionOptions) None false))
  /\ (forall n ctx opts inst o c (s : state W),
        installed (st_heap s) ctx opts ->
        lookup_prop (st_heap s) ctx "sessionOptions"
        = Some (Accessor (Some get_sessionOptions) None c) ->
        lookup_prop (st_heap s) ctx (PSym _CONTEXT_SESSION)
        = Some (Data (VRef inst)) ->
        lookup_prop (st_heap s) inst "opts" = Some (Data o) ->
        Get hst (S (S n)) (VRef ctx) "sessionOptions" s = Some (s, Normal o)
        /\ forall fuel strict x,
             Put hst fuel strict (VRef ctx) "sessionOptions" x s
             = Some (s, if strict
                        then Throw (TypeError "Cannot assign to property")
                        else Normal tt)).
Proof.
  split.
  - intros l opts s s' Hl Hcs Hso. rewrite extendContext_object.
    unfold hasOwnProperty. rewrite Hcs.
    rewrite bool_decide_eq_false_2 by (by intros [? ?]).
    unfold context_descriptors. cbn [defineProperties]. intros E.
    unfold bind at 1 in E.
    destruct (defineProperty l "session" _ s) as [[s1 [[]|e]]|] eqn:E1;
      try done.
    unfold bind at 1 in E.
    destruct (defineProperty l "sessionOptions" _ s1) as [[s2 [[]|e]]|] eqn:E2;
      try done.
    change (defineProperties (VRef l)
              [(PSym CONTEXT_SESSION,
                Descriptor (get_CONTEXT_SESSION opts) None None)] s2
            = Some (s', Normal tt)) in E.
    assert (PStr "sessionOptions" ∉ map fst
              [(PSym CONTEXT_SESSION,
                Descriptor (get_CONTEXT_SESSION opts) None None)]) as Hnot
      by (simpl; not_elem).
    rewrite (defineProperties_own l _ "sessionOptions" s2 s' Hnot E).
    pose proof E1 as E1'. apply defineProperty_heap in E1' as (p1 & H1 & _).
    assert (own (st_heap s1) l "sessionOptions" = None) as Hso1.
    { rewrite H1, own_set_own_ne; [done|by right]. }
    unfold defineProperty, bind, get_heap, put_heap in E2.
    rewrite Hso1 in E2. simpl in E2. injection E2 as <-. cbn [st_heap].
    apply own_set_own_eq. rewrite H1. by apply set_own_is_Some.
  - intros n ctx opts inst o c s [(set & c0 & Hcs) _] Hso Hslot Hopts.
    split.
    + rewrite (Get_accessor hst (S n) ctx _ _ _ _ s Hso). cbn [run_fcode].
      unfold sessionOptions_getter.
      erewrite bind_Normal.
      2:{ rewrite (Get_accessor hst n ctx _ _ _ _ s Hcs). cbn [run_fcode].
          by apply getter_cached. }
      by apply Get_data.
    + intros fuel strict x. by eapply Put_no_setter.
Qed.

End ContextSessionTheorems.
(** * The example application *)




(** ** Runs of the middleware on the example *)

(** The chain throws, autoCommit is on by default: commit runs and the
    error of the chain reaches the caller. *)
Lemma commit_after_downstream_witness :
  load_session saving_host 1 (VRef ctx_loc) (demo_installed saving_host [])
  = Some (demo_loaded saving_host [], Normal (VRef sess_loc))
  /\ downstream saving_host 1 (VRef failing_next_loc) (demo_loaded saving_host [])
     = Some (demo_handled saving_host [] failing_next_loc, Throw handler_failed)
  /\ session_mw saving_host 1 (VRef opts_loc) (VRef ctx_loc)
       (VRef failing_next_loc) (demo_installed saving_host [])
     = Some (State (st_heap (demo_handled saving_host [] failing_next_loc))
               ["save"]
               (st_trace (demo_handled saving_host [] failing_next_loc)
                ++ [EvCommit (VRef sess_loc)]),
             Throw handler_failed).
Proof.
  assert (load_session saving_host 1 (VRef ctx_loc) (demo_installed saving_host [])
          = Some (demo_loaded saving_host [], Normal (VRef sess_loc))) as H1
    by (vm_compute; reflexivity).
  assert (downstream saving_host 1 (VRef failing_next_loc)
            (demo_loaded saving_host [])
          = Some (demo_handled saving_host [] failing_next_loc,
                  Throw handler_failed)) as H2
    by (vm_compute; reflexivity).
  assert (Get saving_host 1 (VRef opts_loc) "autoCommit"
            (demo_handled saving_host [] failing_next_loc)
          = Some (demo_handled saving_host [] failing_next_loc,
                  Normal (VBool true))) as H3
    by (vm_compute; reflexivity).
  split; [exact H1|]. split; [exact H2|].
  exact (commit_after_downstream saving_host 1 (VRef opts_loc) (VRef ctx_loc)
           (VRef failing_next_loc) _ _ _ _ _ _ _ H1 H2 H3 eq_refl).
Defined.

(** C1 as stated fails when commit throws too: the chain throws
    [handler_failed], commit runs and throws [store_down], and the caller
    gets [store_down], not the error of the chain. *)
Lemma commit_error_replaces_chain_error :
  downstream failing_host 1 (VRef failing_next_loc) (demo_loaded failing_host [])
  = Some (demo_handled failing_host [] failing_next_loc, Throw handler_failed)
  /\ commits (st_trace (state_of
       (session_mw failing_host 1 (VRef opts_loc) (VRef ctx_loc)
          (VRef failing_next_loc) (demo_installed failing_host []))
       (demo_installed failing_host []))) = 1
  /\ session_mw failing_host 1 (VRef opts_loc) (VRef ctx_loc)
       (VRef failing_next_loc) (demo_installed failing_host [])
     = Some (State (st_heap (demo_handled failing_host [] failing_next_loc)) []
               (st_trace (demo_handled failing_host [] failing_next_loc)
                ++ [EvCommit (VRef sess_loc)]),
             Throw store_down)
  /\ store_down <> handler_failed.
Proof.
  split; [by vm_compute|]. split; [by vm_compute|].
  split; [by vm_compute|]. discriminate.
Qed.

(** autoCommit is off and the chain returns: nothing is written. *)
Lemma no_commit_without_autoCommit_witness :
  load_session saving_host 1 (VRef ctx_loc)
    (demo_installed saving_host manual_options)
  = Some (demo_loaded saving_host manual_options, Normal (VRef sess_loc))
  /\ downstream saving_host 1 (VRef next_loc)
       (demo_loaded saving_host manual_options)
     = Some (demo_handled saving_host manual_options next_loc, Normal VUndefined)
  /\ exists s',
       session_mw saving_host 1 (VRef opts_loc) (VRef ctx_loc) (VRef next_loc)
         (demo_installed saving_host manual_options)
       = Some (s', Normal VUndefined)
       /\ s' = demo_handled saving_host manual_options next_loc
       /\ st_world s' = st_world (demo_installed saving_host manual_options)
       /\ commits (st_trace s')
          = commits (st_trace (demo_installed saving_host manual_options)).
Proof.
  assert (load_session saving_host 1 (VRef ctx_loc)
            (demo_installed saving_host manual_options)
          = Some (demo_loaded saving_host manual_options,
                  Normal (VRef sess_loc))) as H1
    by (vm_compute; reflexivity).
  assert (downstream saving_host 1 (VRef next_loc)
            (demo_loaded saving_host manual_options)
          = Some (demo_handled saving_host manual_options next_loc,
                  Normal VUndefined)) as H2
    by (vm_compute; reflexivity).
  split; [exact H1|]. split; [exact H2|].
  apply (no_commit_without_autoCommit saving_host 1 opts_loc (VRef ctx_loc)
           (VRef next_loc) _ _ _ _ _ (VBool false) H1);
    [by vm_compute|by vm_compute|exact H2|by vm_compute..].
Defined.

(** A store is configured: the load comes first, the chain next, commit
    last. *)
Lemma load_before_chain_before_commit_witness :
  Get saving_host 1 (VRef ctx_loc) (PSym CONTEXT_SESSION)
    (demo_installed saving_host store_options)
  = Some (demo_fetched saving_host store_options, Normal (VRef sess_loc))
  /\ Get saving_host 1 (VRef sess_loc) "store"
       (demo_fetched saving_host store_options)
     = Some (demo_fetched saving_host store_options, Normal (VRef store_loc))
  /\ st_trace (demo_loaded saving_host store_options)
     = [EvNew (VRef ctx_loc) (VRef opts_loc) sess_loc;
        EvInitFromExternal (VRef sess_loc)]
  /\ session_mw saving_host 1 (VRef opts_loc) (VRef ctx_loc) (VRef next_loc)
       (demo_installed saving_host store_options)
     = finally_result (Normal VUndefined)
         (auto_commit saving_host 1 (VRef opts_loc) (VRef sess_loc)
            (demo_handled saving_host store_options next_loc))
  /\ st_trace (state_of
       (session_mw saving_host 1 (VRef opts_loc) (VRef ctx_loc) (VRef next_loc)
          (demo_installed saving_host store_options))
       (demo_installed saving_host store_options))
     = [EvNew (VRef ctx_loc) (VRef opts_loc) sess_loc;
        EvInitFromExternal (VRef sess_loc); EvNext; EvHostCall 2;
        EvCommit (VRef sess_loc)].
Proof.
  assert (Get saving_host 1 (VRef ctx_loc) (PSym CONTEXT_SESSION)
            (demo_installed saving_host store_options)
          = Some (demo_fetched saving_host store_options, Normal (VRef sess_loc)))
    as H1 by (vm_compute; reflexivity).
  assert (Get saving_host 1 (VRef sess_loc) "store"
            (demo_fetched saving_host store_options)
          = Some (demo_fetched saving_host store_options,
                  Normal (VRef store_loc))) as H2
    by (vm_compute; reflexivity).
  pose proof (load_before_chain_before_commit saving_host 1 (VRef opts_loc)
                (VRef ctx_loc) (VRef next_loc) _ _ _ _ _ H1 H2) as Hthm.
  cbv zeta in Hthm. destruct Hthm as (_ & Horder & _).
  split; [exact H1|]. split; [exact H2|].
  split; [vm_compute; reflexivity|]. split; [|vm_compute; reflexivity].
  refine (Horder (fun _ => eq_refl)
            (demo_handled saving_host store_options next_loc)
            (Normal VUndefined) _).
  vm_compute; reflexivity.
Defined.
(** ** Setup of the example *)

(** A store with [get] only is refused. *)
Lemma formatOpts_rejects_wrong_shape_witness :
  plain_heap (demo_heap half_store_options)
  /\ shape_ok (demo_heap half_store_options) (VRef opts_loc) = false
  /\ (exists s' e,
        formatOpts saving_host 0 (VRef opts_loc) (demo_state half_store_options)
        = Some (s', Throw e))
  /\ (exists s' e,
        session saving_host 0 (VRef opts_loc) (VRef app_loc)
          (demo_state half_store_options)
        = Some (s', Throw e)
        /\ writes_only format_keys (demo_heap half_store_options) (st_heap s')).
Proof.
  assert (plain_heap (demo_heap half_store_options)) as Hp by by_compute.
  assert (is_Some (demo_heap half_store_options !! opts_loc)) as Hl
    by (by vm_compute; eexists).
  assert (shape_ok (demo_heap half_store_options) (VRef opts_loc) = false) as Hs
    by (by vm_compute).
  split; [exact Hp|]. split; [exact Hs|].
  destruct (formatOpts_rejects_wrong_shape saving_host 0 opts_loc
              (demo_heap half_store_options) [] [] Hp Hl Hs) as [Hf Hsession].
  split; [exact Hf|]. apply Hsession. by vm_compute.
Defined.

(** [overwrite: false] is kept; the empty [key] is replaced. *)
Lemma formatOpts_defaults_witness :
  plain_heap (demo_heap empty_key_options)
  /\ options_arg (demo_heap empty_key_options) (VRef opts_loc)
  /\ exists s' c,
       formatOpts saving_host 0 (VRef opts_loc) (demo_state empty_key_options)
       = Some (s', c)
       /\ (forall v, c = Normal v -> v = VRef opts_loc)
       /\ read (st_heap s') (VRef opts_loc) "key" = VStr "koa:sess"
       /\ forall k : string, k ∈ flag_options ->
            read (st_heap s') (VRef opts_loc) k
            = (if eq_null (read (demo_heap empty_key_options) (VRef opts_loc) k)
               then VBool true
               else read (demo_heap empty_key_options) (VRef opts_loc) k).
Proof.
  assert (plain_heap (demo_heap empty_key_options)) as Hp by by_compute.
  assert (options_arg (demo_heap empty_key_options) (VRef opts_loc)) as Ho
    by (by vm_compute; eexists).
  split; [exact Hp|]. split; [exact Ho|].
  exact (formatOpts_defaults saving_host 0 (VRef opts_loc)
           (demo_heap empty_key_options) [] [] Hp Ho).
Defined.

(** C5 as stated fails for [key]: the caller supplies the empty string,
    and formatOpts returns the options with [key] set to ["koa:sess"]. *)
Lemma formatOpts_replaces_empty_key :
  formatOpts saving_host 0 (VRef opts_loc) (demo_state empty_key_options)
  = Some (state_of (formatOpts saving_host 0 (VRef opts_loc)
                      (demo_state empty_key_options))
            (demo_state empty_key_options),
          Normal (VRef opts_loc))
  /\ read (demo_heap empty_key_options) (VRef opts_loc) "key" = VStr ""
  /\ read (st_heap (state_of (formatOpts saving_host 0 (VRef opts_loc)
                                (demo_state empty_key_options))
                      (demo_state empty_key_options)))
       (VRef opts_loc) "key" = VStr "koa:sess"
  /\ VStr "koa:sess" <> VStr "".
Proof. repeat split; try (by vm_compute). Qed.

(** With [prefix: "sess:"] the generator prefixes the UUID it draws. *)
Lemma formatOpts_genid_witness :
  plain_heap (demo_heap prefix_options)
  /\ shape_ok (demo_heap prefix_options) (VRef opts_loc) = true
  /\ exists s',
       formatOpts saving_host 0 (VRef opts_loc) (demo_state prefix_options)
       = Some (s', Normal (VRef opts_loc))
       /\ Call saving_host 1 (read (st_heap s') (VRef opts_loc) "genid")
            VUndefined [] s'
          = Some (s', Normal (VStr "sess:6f1d3c8e-2b7a-4e15-9c40-a1b2c3d4e5f6")).
Proof.
  assert (plain_heap (demo_heap prefix_options)) as Hp by by_compute.
  assert (is_Some (demo_heap prefix_options !! opts_loc)) as Hl
    by (by vm_compute; eexists).
  assert (shape_ok (demo_heap prefix_options) (VRef opts_loc) = true) as Hs
    by (by vm_compute).
  assert (option_map kind (demo_heap prefix_options !! uuid_loc)
          = Some (KFunction uuid)) as Hu by (by vm_compute).
  split; [exact Hp|]. split; [exact Hs|].
  destruct (formatOpts_genid saving_host 0 opts_loc (demo_heap prefix_options)
              [] [] Hp Hl Hs Hu) as (s' & E & _ & Hgen).
  exists s'. split; [exact E|].
  assert (s' = State (st_heap s') [] []) as Es'.
  { revert E. vm_compute. by intros [= <-]. }
  rewrite Es' at 2 3.
  apply (Hgen ltac:(by vm_compute) 0 VUndefined [] [] [] "sess:").
  left. by vm_compute.
Defined.

(** ** The request context of the example *)


(** On the example, [sessionOptions] gives the options of the setup, and
    assigning to it changes nothing. *)
Lemma sessionOptions_read_only_witness :
  own (st_heap (demo_installed saving_host [])) context_loc "sessionOptions"
  = Some (Accessor (Some get_sessionOptions) None false)
  /\ Get saving_host 2 (VRef ctx_loc) "sessionOptions"
       (demo_loaded saving_host [])
     = Some (demo_loaded saving_host [], Normal (VRef opts_loc))
  /\ Put saving_host 2 true (VRef ctx_loc) "sessionOptions" VNull
       (demo_loaded saving_host [])
     = Some (demo_loaded saving_host [],
             Throw (TypeError "Cannot assign to property")).
Proof.
  destruct (sessionOptions_read_only saving_host) as [Hdef Hread].
  split.
  - set (s0 := state_of (formatOpts saving_host 1 (VRef opts_loc) (demo_state []))
                 (demo_state [])).
    apply (Hdef context_loc (VRef opts_loc) s0
             (state_of (extendContext (VRef context_loc) (VRef opts_loc) s0) s0));
      by vm_compute; eexists.
  - destruct (Hread 0 ctx_loc (VRef opts_loc) sess_loc (VRef opts_loc) false
                (demo_loaded saving_host [])) as [Hget Hput].
    + split; [exists None, false|exists true]; by vm_compute.
    + by vm_compute.
    + by vm_compute.
    + by vm_compute.
    + split; [exact Hget|]. exact (Hput 2 true VNull).
Defined.

(** A second installation on the example, with other options, changes
    nothing. *)
Lemma extendContext_idempotent_witness :
  hasOwnProperty (st_heap (demo_installed saving_host [])) context_loc
    (PSym CONTEXT_SESSION) = true
  /\ extendContext (VRef context_loc) (VRef store_loc)
       (demo_installed saving_host [])
     = Some (demo_installed saving_host [], Normal tt)
  /\ (extendContext (VRef context_loc) (VRef opts_loc) (demo_state [])
      = Some (state_of (extendContext (VRef context_loc) (VRef opts_loc)
                          (demo_state [])) (demo_state []), Normal tt)
      /\ extendContext (VRef context_loc) (VRef store_loc)
           (state_of (extendContext (VRef context_loc) (VRef opts_loc)
                        (demo_state [])) (demo_state []))
         = Some (state_of (extendContext (VRef context_loc) (VRef opts_loc)
                             (demo_state [])) (demo_state []), Normal tt)).
Proof.
  assert (hasOwnProperty (st_heap (demo_installed saving_host [])) context_loc
            (PSym CONTEXT_SESSION) = true) as Hown by (by vm_compute).
  split; [exact Hown|]. split.
  - exact (proj1 (extendContext_idempotent (VRef context_loc) (VRef store_loc)
                    (VRef opts_loc) (demo_installed saving_host [])
                    (demo_installed saving_host []))
             context_loc eq_refl Hown).
  - assert (extendContext (VRef context_loc) (VRef opts_loc) (demo_state [])
            = Some (state_of (extendContext (VRef context_loc) (VRef opts_loc)
                                (demo_state [])) (demo_state []), Normal tt))
      as H1 by (by vm_compute).
    split; [exact H1|].
    exact (proj2 (extendContext_idempotent (VRef context_loc) (VRef opts_loc)
                    (VRef store_loc) (demo_state []) _) H1).
Defined.
(** * What the setup leaves alone *)

Section Frames.

Context {W : Type} (hst : host W).

Lemma touches_refl l K (s : state W) : touches l K s s.
Proof. by repeat split. Qed.

Lemma kind_is_Some (h h' : heap) l' :
  option_map kind (h' !! l') = option_map kind (h !! l') ->
  is_Some (h !! l') -> is_Some (h' !! l').
Proof. intros Hk [o Ho]. rewrite Ho in Hk. destruct (h' !! l'); [eauto|done]. Qed.

Lemma touches_trans l K (s1 s2 s3 : state W) :
  touches l K s1 s2 -> touches l K s2 s3 -> touches l K s1 s3.
Proof.
  intros (Hw1 & Ht1 & Hk1 & Ho1) (Hw2 & Ht2 & Hk2 & Ho2).
  split; [congruence|]. split; [congruence|].
  assert (forall l', is_Some (st_heap s1 !! l') -> is_Some (st_heap s2 !! l'))
    as Hsome.
  { intros l' Hl'. eapply kind_is_Some; [|done]. by apply Hk1. }
  split.
  - intros l' Hl'. destruct (Hk1 l' Hl') as [Ha Hb].
    destruct (Hk2 l' (Hsome l' Hl')) as [Hc Hd]. split; congruence.
  - intros l' k Hl' Hne. rewrite Ho2 by auto. by apply Ho1.
Qed.

Lemma frames_ret {A} l K (a : A) : frames l K (ret a : M W A).
Proof. intros s s' c Hp [= <- <-]. split; [done|apply touches_refl]. Qed.

Lemma frames_throw {A} l K e : frames l K (throw e : M W A).
Proof. intros s s' c Hp [= <- <-]. split; [done|apply touches_refl]. Qed.

Lemma frames_bind {A B} l K (m : M W A) (f : A -> M W B) :
  frames l K m -> (forall a, frames l K (f a)) -> frames l K (bind m f).
Proof.
  intros Hm Hf s s' c Hp. unfold bind.
  destruct (m s) as [[s1 [a|e]]|] eqn:E; [| |done].
  - intros E'. destruct (Hm s s1 _ Hp E) as [Hp1 Ht1].
    destruct (Hf a s1 s' c Hp1 E') as [Hp' Ht']. split; [done|].
    by eapply touches_trans.
  - intros [= <- <-]. by apply (Hm s s1 _ Hp E).
Qed.

Lemma frames_Get l K fuel v k : frames l K (Get hst fuel v k).
Proof.
  intros [h w tr] s' c Hp. cbn [st_heap] in Hp.
  destruct (is_nullish v) eqn:Hn.
  - rewrite Get_nullish by done. intros [= <- <-].
    split; [done|apply touches_refl].
  - rewrite Get_plain by done. intros [= <- <-].
    split; [done|apply touches_refl].
Qed.

Lemma touches_set_own l K k x h (w : W) tr :
  k ∈ K -> touches l K (State h w tr) (State (set_own h l k (Data x)) w tr).
Proof.
  intros Hk. split; [done|]. split; [done|]. cbn [st_heap]. split.
  - intros l' _. apply set_own_lookup.
  - intros l' k' _ Hne. apply own_set_own_ne.
    destruct Hne as [?|Hne]; [by left|]. right. by intros ->.
Qed.

Lemma frames_Put l K fuel k x :
  k ∈ K -> frames l K (Put hst fuel true (VRef l) k x).
Proof.
  intros Hk [h w tr] s' c Hp. cbn [st_heap] in Hp.
  rewrite Put_plain by done. intros [= <- <-].
  split; [by apply plain_heap_set_own|by apply touches_set_own].
Qed.

Lemma frames_new_object l K k c :
  frames l K (new_object (Object k c ∅) : M W value).
Proof.
  intros [h w tr] s' c' Hp. cbn [st_heap] in Hp.
  unfold new_object. cbn [st_heap st_world st_trace alloc].
  intros [= <- <-]. split; [by apply (plain_heap_alloc h k c)|].
  split; [done|]. split; [done|]. cbn [st_heap].
  assert (forall l', is_Some (h !! l') -> l' <> fresh_loc h) as Hne.
  { intros l' Hl' ->. rewrite fresh_loc_None in Hl'. by destruct Hl'. }
  split.
  - intros l' Hl'. by rewrite lookup_insert_ne by (by apply not_eq_sym, Hne).
  - intros l' k' Hl' _. unfold own.
    by rewrite lookup_insert_ne by (by apply not_eq_sym, Hne).
Qed.

Lemma frames_typeof_function l K v : frames l K (typeof_function v : M W bool).
Proof. intros s s' c Hp [= <- <-]. split; [done|apply touches_refl]. Qed.

Lemma frames_get_heap l K : frames l K (get_heap : M W heap).
Proof. intros s s' c Hp [= <- <-]. split; [done|apply touches_refl]. Qed.

Lemma frames_assert l K b msg : frames l K (assert b msg : M W unit).
Proof. destruct b; [apply frames_ret|apply frames_throw]. Qed.

Lemma frames_has_in l K k v : frames l K (has_in k v : M W bool).
Proof.
  destruct v; try apply frames_throw.
  apply frames_bind; [apply frames_get_heap|]. intros h. apply frames_ret.
Qed.

Lemma frames_if {A} l K (b : bool) (m1 m2 : M W A) :
  frames l K m1 -> frames l K m2 -> frames l K (if b then m1 else m2).
Proof. by destruct b. Qed.

Lemma frames_assert_function l K fuel o (k : string) msg :
  frames l K (assert_function hst fuel o k msg).
Proof.
  apply frames_bind; [apply frames_Get|]. intros f.
  apply frames_bind; [apply frames_typeof_function|]. intros b.
  apply frames_assert.
Qed.

Lemma frames_default_true l K fuel (k : string) :
  PStr k ∈ K -> frames l K (default_true hst fuel (VRef l) k).
Proof.
  intros Hk. apply frames_bind; [apply frames_Get|]. intros v.
  apply frames_if; [by apply frames_Put|apply frames_ret].
Qed.

(** On an object, the first lines of formatOpts keep [opts]. *)
Lemma formatOpts_object fuel l (s : state W) :
  formatOpts hst fuel (VRef l) s
  = (key <- Get hst fuel (VRef l) "key" ;;
     Put hst fuel true (VRef l) "key"
       (if truthy key then key else VStr "koa:sess") ;;;
     format_maxAge hst fuel (VRef l) ;;;
     format_defaults hst fuel (VRef l) ;;;
     format_codec hst fuel (VRef l) ;;;
     check_store hst fuel (VRef l) ;;;
     check_externalKey hst fuel (VRef l) ;;;
     check_ContextStore hst fuel (VRef l) ;;;
     format_genid hst fuel (VRef l) ;;;
     ret (VRef l)) s.
Proof.
  unfold formatOpts, format_key. cbn [truthy]. unfold bind, ret.
  destruct (Get hst fuel (VRef l) "key" s) as [[s1 [key|e]]|]; [|done..].
  by destruct (Put hst fuel true (VRef l) "key" _ s1) as [[s2 [[]|e]]|].
Qed.

Lemma frames_ext {A} l K (m m' : M W A) :
  (forall s, m s = m' s) -> frames l K m' -> frames l K m.
Proof. intros He Hm s s' c Hp E. rewrite He in E. by apply (Hm s s' c). Qed.

Lemma frames_formatOpts l fuel :
  frames l option_keys (formatOpts hst fuel (VRef l)).
Proof.
  eapply frames_ext; [apply formatOpts_object|].
  unfold format_maxAge, format_defaults, format_codec,
    check_store, check_externalKey, check_ContextStore, format_genid,
    assert_prototype_function.
  repeat first
    [ apply frames_ret
    | apply frames_Get
    | apply frames_get_heap
    | apply frames_typeof_function
    | apply frames_has_in
    | apply frames_assert
    | apply frames_assert_function
    | apply frames_new_object
    | apply frames_Put; by_compute
    | apply frames_default_true; by_compute
    | apply frames_if
    | apply frames_bind; [|intros ?] ].
Qed.

End Frames.
Section SetupExtras.

Context {W : Type} (hst : host W).



End SetupExtras.


Section WrittenValues.

Context {W : Type} (hst : host W).

Lemma has_property_set_own (h : heap) l k p :
  is_Some (h !! l) -> has_property (set_own h l k p) l k = true.
Proof.
  intros Hl. unfold has_property. rewrite lookup_prop_set_own_eq by done.
  by apply bool_decide_eq_true_2.
Qed.

Lemma format_maxAge_value fuel l h (w : W) tr :
  plain_heap h -> is_Some (h !! l) ->
  exists h',
    format_maxAge hst fuel (VRef l) (State h w tr)
      = Some (State h' w tr, Normal tt)
    /\ has_property h' l "maxAge" = true
    /\ read h' (VRef l) "maxAge"
       = (if has_property h l "maxAge" then read h (VRef l) "maxAge"
          else read h (VRef l) "maxage").
Proof.
  intros Hp Hl. unfold format_maxAge, has_in.
  unfold bind at 1. unfold bind at 1. unfold get_heap, ret. simpl.
  destruct (has_property h l "maxAge") eqn:Hin; simpl.
  - by exists h.
  - erewrite bind_Normal by (by apply Get_plain).
    rewrite Put_plain by done. eexists. split; [done|].
    split; [by apply has_property_set_own|by apply read_set_own_eq].
Qed.

Lemma format_codec_value fuel l h (w : W) tr :
  plain_heap h -> is_Some (h !! l) ->
  exists h',
    format_codec hst fuel (VRef l) (State h w tr)
      = Some (State h' w tr, Normal tt)
    /\ read h' (VRef l) "encode"
       = (if is_function h (read h (VRef l) "encode")
          then read h (VRef l) "encode" else VRef util_encode_loc)
    /\ read h' (VRef l) "decode"
       = (if is_function h (read h (VRef l) "decode")
          then read h (VRef l) "decode" else VRef util_decode_loc).
Proof.
  intros Hp Hl. unfold format_codec.
  erewrite bind_Normal by (by apply Get_plain).
  erewrite bind_Normal by apply typeof_function_eq. cbn [st_heap].
  assert (exists h1, (if negb (is_function h (read h (VRef l) "encode"))
            then Put hst fuel true (VRef l) "encode" (VRef util_encode_loc)
            else ret tt) (State h w tr) = Some (State h1 w tr, Normal tt)
          /\ plain_heap h1 /\ writes_only [PStr "encode"] h h1
          /\ read h1 (VRef l) "encode"
             = (if is_function h (read h (VRef l) "encode")
                then read h (VRef l) "encode" else VRef util_encode_loc))
    as (h1 & E1 & Hp1 & Hw1 & R1).
  { destruct (is_function h (read h (VRef l) "encode")); simpl.
    - exists h. split; [done|]. split; [done|]. split; [apply writes_only_refl|done].
    - rewrite Put_plain by done. eexists. split; [done|].
      split; [by apply plain_heap_set_own|].
      split; [apply writes_only_set_own|by apply read_set_own_eq]. }
  erewrite bind_Normal by exact E1.
  erewrite bind_Normal by (by apply Get_plain).
  erewrite bind_Normal by apply typeof_function_eq. cbn [st_heap].
  pose proof (proj2 (writes_only_is_Some _ _ _ l Hw1) Hl) as Hl1.
  rewrite (writes_only_is_function _ _ _ _ Hw1).
  rewrite (writes_only_read _ _ _ _ "decode" Hw1) by by_compute.
  destruct (is_function h (read h (VRef l) "decode")) eqn:Hd; simpl.
  - exists h1. split; [done|]. split; [done|].
    by rewrite (writes_only_read _ _ _ _ "decode" Hw1) by by_compute.
  - rewrite Put_plain by done. eexists. split; [done|]. split.
    + by rewrite read_set_own_ne.
    + by apply read_set_own_eq.
Qed.

(** The state formatOpts is in when its shape checks start. *)
Lemma formatOpts_prefix_values fuel l h (w : W) tr :
  plain_heap h -> is_Some (h !! l) ->
  exists h',
    formatOpts hst fuel (VRef l) (State h w tr)
      = (check_store hst fuel (VRef l) ;;;
         check_externalKey hst fuel (VRef l) ;;;
         check_ContextStore hst fuel (VRef l) ;;;
         format_genid hst fuel (VRef l) ;;;
         ret (VRef l)) (State h' w tr)
    /\ plain_heap h' /\ is_Some (h' !! l)
    /\ has_property h' l "maxAge" = true
    /\ read h' (VRef l) "maxAge"
       = (if has_property h l "maxAge" then read h (VRef l) "maxAge"
          else read h (VRef l) "maxage")
    /\ read h' (VRef l) "encode"
       = (if is_function h (read h (VRef l) "encode")
          then read h (VRef l) "encode" else VRef util_encode_loc)
    /\ read h' (VRef l) "decode"
       = (if is_function h (read h (VRef l) "decode")
          then read h (VRef l) "decode" else VRef util_decode_loc)
    /\ writes_only format_keys h h'
    /\ read h' (VRef l) "key"
       = (if truthy (read h (VRef l) "key") then read h (VRef l) "key"
          else VStr "koa:sess")
    /\ (forall k : string, k ∈ flag_options ->
          read h' (VRef l) k
          = (if eq_null (read h (VRef l) k) then VBool true
             else read h (VRef l) k)).
Proof.
  intros Hp Hl. unfold formatOpts.
  destruct (format_key_plain hst fuel l h w tr Hp Hl)
    as (h1 & E1 & Hp1 & Hw1 & Rk).
  pose proof (proj2 (writes_only_is_Some _ _ _ l Hw1) Hl) as Hl1.
  destruct (format_maxAge_plain hst fuel l h1 w tr Hp1)
    as (h2 & E2 & Hp2 & Hw2).
  destruct (format_maxAge_value fuel l h1 w tr Hp1 Hl1)
    as (h2' & E2' & Hin2 & R2).
  rewrite E2 in E2'. injection E2' as <-.
  pose proof (proj2 (writes_only_is_Some _ _ _ l Hw2) Hl1) as Hl2.
  destruct (format_defaults_plain hst fuel l h2 w tr Hp2 Hl2)
    as (h3 & E3 & Hp3 & Hw3 & Rf).
  pose proof (proj2 (writes_only_is_Some _ _ _ l Hw3) Hl2) as Hl3.
  destruct (format_codec_plain hst fuel l h3 w tr Hp3)
    as (h4 & E4 & Hp4 & Hw4).
  destruct (format_codec_value fuel l h3 w tr Hp3 Hl3)
    as (h4' & E4' & Re & Rd).
  rewrite E4 in E4'. injection E4' as <-.
  pose proof (proj2 (writes_only_is_Some _ _ _ l Hw4) Hl3) as Hl4.
  exists h4. split.
  { erewrite bind_Normal by exact E1. erewrite bind_Normal by exact E2.
    erewrite bind_Normal by exact E3. by erewrite bind_Normal by exact E4. }
  split; [done|]. split; [done|].
  assert (forall k : string, PStr k ∉ [PStr "key"] ->
            read h1 (VRef l) k = read h (VRef l) k)
    as R1 by (intros k Hk; by apply (writes_only_read _ _ _ _ _ Hw1)).
  assert (has_property h1 l "maxAge" = has_property h l "maxAge") as Hin1.
  { unfold has_property. by rewrite (proj2 Hw1 l "maxAge") by by_compute. }
  split.
  { unfold has_property in *.
    rewrite (proj2 Hw4 l "maxAge"), (proj2 Hw3 l "maxAge") by by_compute.
    done. }
  split.
  { rewrite (writes_only_read _ _ _ _ "maxAge" Hw4),
      (writes_only_read _ _ _ _ "maxAge" Hw3) by by_compute.
    rewrite R2, Hin1, !R1 by by_compute. done. }
  split.
  { rewrite Re.
    rewrite !(writes_only_is_function _ _ _ _ Hw3),
      !(writes_only_is_function _ _ _ _ Hw2),
      !(writes_only_is_function _ _ _ _ Hw1).
    rewrite !(writes_only_read _ _ _ _ "encode" Hw3),
      !(writes_only_read _ _ _ _ "encode" Hw2) by by_compute.
    rewrite !R1 by by_compute. done. }
  split.
  { rewrite Rd.
    rewrite !(writes_only_is_function _ _ _ _ Hw3),
      !(writes_only_is_function _ _ _ _ Hw2),
      !(writes_only_is_function _ _ _ _ Hw1).
    rewrite !(writes_only_read _ _ _ _ "decode" Hw3),
      !(writes_only_read _ _ _ _ "decode" Hw2) by by_compute.
    rewrite !R1 by by_compute. done. }
  split.
  { apply (writes_only_trans [PStr "key"] _ h h1 h4 Hw1).
    apply (writes_only_trans [PStr "maxAge"] _ h1 h2 h4 Hw2).
    by apply (writes_only_trans (map PStr flag_options)
                [PStr "encode"; PStr "decode"] h2 h3 h4). }
  split.
  { rewrite (writes_only_read _ _ _ _ _ Hw4), (writes_only_read _ _ _ _ _ Hw3),
      (writes_only_read _ _ _ _ _ Hw2); [done|..]; not_elem. }
  intros k Hk. rewrite (writes_only_read _ _ _ _ _ Hw4).
  2:{ unfold flag_options in Hk.
      repeat (apply elem_of_cons in Hk as [->|Hk]); try not_elem.
      by apply elem_of_nil in Hk. }
  rewrite (Rf k Hk).
  rewrite (writes_only_read _ _ _ _ _ Hw2), (writes_only_read _ _ _ _ _ Hw1);
    [done|..]; unfold flag_options in Hk;
    repeat (apply elem_of_cons in Hk as [->|Hk]); try not_elem;
    by apply elem_of_nil in Hk.
Qed.

(** The shape checks and the generator leave every property but [genid]
    as it is. *)
Lemma formatOpts_rest_lookup fuel l h (w : W) tr s' c l' k :
  plain_heap h -> is_Some (h !! l) -> is_Some (h !! l') -> k <> PStr "genid" ->
  (check_store hst fuel (VRef l) ;;;
   check_externalKey hst fuel (VRef l) ;;;
   check_ContextStore hst fuel (VRef l) ;;;
   format_genid hst fuel (VRef l) ;;;
   ret (VRef l)) (State h w tr) = Some (s', c) ->
  lookup_prop (st_heap s') l' k = lookup_prop h l' k.
Proof.
  intros Hp Hl Hl' Hk E.
  destruct (check_store_plain hst fuel l h w tr Hp) as (c1 & E1 & _).
  unfold bind at 1 in E. rewrite E1 in E.
  destruct c1 as [[]|e1]; [|by injection E as <- <-].
  destruct (check_externalKey_plain hst fuel l h w tr Hp) as (c2 & E2 & _).
  unfold bind at 1 in E. rewrite E2 in E.
  destruct c2 as [[]|e2]; [|by injection E as <- <-].
  destruct (check_ContextStore_plain hst fuel l h w tr Hp) as (c3 & E3 & _).
  unfold bind at 1 in E. rewrite E3 in E.
  destruct c3 as [[]|e3]; [|by injection E as <- <-].
  destruct (format_genid_plain hst fuel l h w tr Hp Hl)
    as (h' & Eg & _ & Hlk & _).
  unfold bind at 1 in E. rewrite Eg in E. injection E as <- <-.
  by apply Hlk.
Qed.

End WrittenValues.
Section WrittenValueTheorems.

Context {W : Type} (hst : host W).

(** X3. The back-compat of [maxage] (line 68): after formatOpts the
    options always have a property [maxAge]; it holds what [maxAge] held
    when the options already had that property, even with the value
    [undefined], and what [maxage] holds otherwise. *)
Theorem formatOpts_maxAge fuel l h (w : W) tr s' c :
  plain_heap h -> is_Some (h !! l) ->
  formatOpts hst fuel (VRef l) (State h w tr) = Some (s', c) ->
  has_property (st_heap s') l "maxAge" = true
  /\ read (st_heap s') (VRef l) "maxAge"
     = (if has_property h l "maxAge" then read h (VRef l) "maxAge"
        else read h (VRef l) "maxage").
Proof.
  intros Hp Hl E.
  destruct (formatOpts_prefix_values hst fuel l h w tr Hp Hl)
    as (h1 & E1 & Hp1 & Hl1 & Hin & Rm & _).
  rewrite E in E1. symmetry in E1.
  pose proof (formatOpts_rest_lookup hst fuel l h1 w tr s' c l "maxAge" Hp1 Hl1
                Hl1 ltac:(done) E1) as Hlk.
  split.
  - unfold has_property in *. by rewrite Hlk.
  - rewrite <- Rm. unfold read. by rewrite Hlk.
Qed.

(** X4. The codec defaults (lines 79-84): [encode] and [decode] are kept
    when they are functions, and replaced by [util.encode] and
    [util.decode] when they are anything else, unset included. *)
Theorem formatOpts_codec fuel l h (w : W) tr s' c :
  plain_heap h -> is_Some (h !! l) ->
  formatOpts hst fuel (VRef l) (State h w tr) = Some (s', c) ->
  read (st_heap s') (VRef l) "encode"
  = (if is_function h (read h (VRef l) "encode")
     then read h (VRef l) "encode" else VRef util_encode_loc)
  /\ read (st_heap s') (VRef l) "decode"
     = (if is_function h (read h (VRef l) "decode")
        then read h (VRef l) "decode" else VRef util_decode_loc).
Proof.
  intros Hp Hl E.
  destruct (formatOpts_prefix_values hst fuel l h w tr Hp Hl)
    as (h1 & E1 & Hp1 & Hl1 & _ & _ & Re & Rd & _).
  rewrite E in E1. symmetry in E1.
  rewrite <- Re, <- Rd. unfold read.
  rewrite (formatOpts_rest_lookup hst fuel l h1 w tr s' c l "encode" Hp1 Hl1
             Hl1 ltac:(done) E1).
  by rewrite (formatOpts_rest_lookup hst fuel l h1 w tr s' c l "decode" Hp1 Hl1
                Hl1 ltac:(done) E1).
Qed.

(** X5. Options that are neither an object nor falsy, such as [true], a
    number or a string, make formatOpts throw a TypeError at its first
    assignment (the module is in strict mode), with the state as it was. *)
Theorem formatOpts_rejects_primitive fuel opts (s : state W) :
  truthy opts = true -> (forall l, opts <> VRef l) ->
  formatOpts hst fuel opts s
  = Some (s, Throw (TypeError "Cannot assign to property")).
Proof.
  intros Ht Hl. unfold formatOpts, format_key. rewrite Ht.
  destruct opts as [| |b|n|str|l]; try done; try (by destruct (Hl l));
    by destruct fuel.
Qed.

End WrittenValueTheorems.

Lemma formatOpts_maxAge_witness :
  plain_heap (demo_heap maxage_options)
  /\ formatOpts saving_host 0 (VRef opts_loc) (demo_state maxage_options)
     = Some (demo_formatted saving_host maxage_options, Normal (VRef opts_loc))
  /\ read (st_heap (demo_formatted saving_host maxage_options)) (VRef opts_loc)
       "maxAge" = VNum 86400000.
Proof.
  assert (plain_heap (demo_heap maxage_options)) as Hp by by_compute.
  assert (is_Some (demo_heap maxage_options !! opts_loc)) as Hl
    by (by vm_compute; eexists).
  assert (formatOpts saving_host 0 (VRef opts_loc) (demo_state maxage_options)
          = Some (demo_formatted saving_host maxage_options,
                  Normal (VRef opts_loc))) as E
    by (vm_compute; reflexivity).
  split; [exact Hp|]. split; [exact E|].
  exact (proj2 (formatOpts_maxAge saving_host 0 opts_loc
                  (demo_heap maxage_options) [] [] _ _ Hp Hl E)).
Defined.

Lemma formatOpts_codec_witness :
  plain_heap (demo_heap codec_options)
  /\ formatOpts saving_host 0 (VRef opts_loc) (demo_state codec_options)
     = Some (demo_formatted saving_host codec_options, Normal (VRef opts_loc))
  /\ read (st_heap (demo_formatted saving_host codec_options)) (VRef opts_loc)
       "encode" = VRef genid_loc
  /\ read (st_heap (demo_formatted saving_host codec_options)) (VRef opts_loc)
       "decode" = VRef util_decode_loc.
Proof.
  assert (plain_heap (demo_heap codec_options)) as Hp by by_compute.
  assert (is_Some (demo_heap codec_options !! opts_loc)) as Hl
    by (by vm_compute; eexists).
  assert (formatOpts saving_host 0 (VRef opts_loc) (demo_state codec_options)
          = Some (demo_formatted saving_host codec_options,
                  Normal (VRef opts_loc))) as E
    by (vm_compute; reflexivity).
  split; [exact Hp|]. split; [exact E|].
  exact (formatOpts_codec saving_host 0 opts_loc
           (demo_heap codec_options) [] [] _ _ Hp Hl E).
Defined.

Lemma formatOpts_rejects_primitive_witness :
  formatOpts saving_host 0 (VStr "koa:sess") (demo_state [])
  = Some (demo_state [], Throw (TypeError "Cannot assign to property")).
Proof.
  apply (formatOpts_rejects_primitive saving_host 0 (VStr "koa:sess")
           (demo_state [])); [reflexivity|discriminate].
Defined.
(** * More on extendContext *)

Section ExtendContextExtras.

Context {W : Type}.

Lemma defineProperty_fresh l k d h (w : W) tr :
  own h l k = None ->
  defineProperty l k d (State h w tr)
  = Some (State (set_own h l k
                   (Accessor (Some (d_get d)) (d_set d)
                      (default false (d_configurable d)))) w tr,
          Normal tt).
Proof.
  intros Ho. unfold defineProperty, bind, get_heap, put_heap.
  cbn [st_heap st_world st_trace]. by rewrite Ho.
Qed.



(** A context that is not an object is refused, with the state as it
    was. *)
Lemma extendContext_rejects_non_object context opts (s : state W) :
  (forall l, context <> VRef l) ->
  exists msg, extendContext context opts s = Some (s, Throw (TypeError msg)).
Proof.
  intros Hl. destruct context as [| |b|n|str|l];
    try (by eexists); by destruct (Hl l).
Qed.

(** X8. An installation is not atomic.  When the context has no
    [CONTEXT_SESSION] of its own but already has a [session] that is not
    configurable, extendContext throws a TypeError and changes nothing.
    When it is [sessionOptions] that is not configurable, extendContext
    throws the TypeError after [session] has been defined, and before
    [CONTEXT_SESSION] is. *)
Theorem extendContext_refused l opts h (w : W) tr get set :
  is_Some (h !! l) ->
  own h l (PSym CONTEXT_SESSION) = None ->
  (own h l "session" = Some (Accessor get set false) ->
   extendContext (VRef l) opts (State h w tr)
   = Some (State h w tr, Throw (TypeError "Cannot redefine property")))
  /\ (own h l "session" = None ->
      own h l "sessionOptions" = Some (Accessor get set false) ->
      extendContext (VRef l) opts (State h w tr)
      = Some (State (set_own h l "session"
                       (Accessor (Some get_session) (Some set_session) true))
                w tr,
              Throw (TypeError "Cannot redefine property"))
      /\ own (set_own h l "session"
                (Accessor (Some get_session) (Some set_session) true))
           l (PSym CONTEXT_SESSION) = None).
Proof.
  intros Hl Hcs.
  assert (extendContext (VRef l) opts (State h w tr)
          = defineProperties (VRef l) (context_descriptors opts) (State h w tr))
    as ->.
  { rewrite extendContext_object. cbn [st_heap]. unfold hasOwnProperty.
    rewrite Hcs. by rewrite bool_decide_eq_false_2 by (by intros [? ?]). }
  unfold context_descriptors. cbn [defineProperties]. split.
  - intros Hs. erewrite bind_Throw; [done|].
    unfold defineProperty, bind, get_heap. cbn [st_heap]. by rewrite Hs.
  - intros Hs Hso. split.
    + erewrite bind_Normal by (by apply defineProperty_fresh).
      erewrite bind_Throw; [done|].
      unfold defineProperty, bind, get_heap. cbn [st_heap].
      rewrite own_set_own_ne by (by right). by rewrite Hso.
    + by rewrite own_set_own_ne by (by right).
Qed.

End ExtendContextExtras.


Lemma extendContext_refused_witness :
  extendContext (VRef context_loc) (VRef opts_loc)
    (State (locked_heap "session") ([] : list string) [])
  = Some (State (locked_heap "session") [] [],
          Throw (TypeError "Cannot redefine property"))
  /\ extendContext (VRef context_loc) (VRef opts_loc)
       (State (locked_heap "sessionOptions") ([] : list string) [])
     = Some (State (set_own (locked_heap "sessionOptions") context_loc "session"
                      (Accessor (Some get_session) (Some set_session) true))
               [] [],
             Throw (TypeError "Cannot redefine property")).
Proof.
  split.
  - apply (proj1 (extendContext_refused context_loc (VRef opts_loc)
                    (locked_heap "session") ([] : list string) [] None None
                    ltac:(by vm_compute; eexists) ltac:(by vm_compute))).
    by vm_compute.
  - apply (proj2 (extendContext_refused context_loc (VRef opts_loc)
                    (locked_heap "sessionOptions") ([] : list string) [] None None
                    ltac:(by vm_compute; eexists) ltac:(by vm_compute)));
      by vm_compute.
Defined.
(** * From the setup to the requests *)

Section SetupToRequest.

Context {W : Type} (hst : host W).

Lemma formatOpts_lookup_frame fuel l h (w : W) tr s' c l' k :
  plain_heap h -> is_Some (h !! l) -> is_Some (h !! l') -> k ∉ option_keys ->
  formatOpts hst fuel (VRef l) (State h w tr) = Some (s', c) ->
  lookup_prop (st_heap s') l' k = lookup_prop h l' k.
Proof.
  intros Hp Hl Hl' Hk E.
  destruct (formatOpts_prefix hst fuel l h w tr Hp Hl)
    as (h1 & E1 & Hp1 & Hl1 & Hw & _).
  rewrite E in E1. symmetry in E1.
  apply not_elem_of_cons in Hk as [Hg Hk].
  rewrite (formatOpts_rest_lookup hst fuel l h1 w tr s' c l' k Hp1 Hl1
             (proj2 (writes_only_is_Some _ _ _ l' Hw) Hl') Hg E1).
  by apply (proj2 Hw).
Qed.




End SetupToRequest.

(** * More on the accessors and the middleware *)

Section RequestExtras.

Context {W : Type} (hst : host W).

(** X10. [ctx.session] is the engine of the request seen through [get]
    and [set]: once the engine is cached, reading [ctx.session] calls
    [get()] on it and gives what [get] gives, and assigning [val] to
    [ctx.session], in strict or sloppy code, calls [set(val)] on it; in
    both an error of the engine goes on to the caller. *)
Theorem session_property_delegates n ctx opts inst (s : state W) :
  installed (st_heap s) ctx opts ->
  lookup_prop (st_heap s) ctx (PSym _CONTEXT_SESSION) = Some (Data (VRef inst)) ->
  Get hst (S (S n)) (VRef ctx) "session" s
  = Some (after_host (emitted s (EvSessionGet (VRef inst)))
            (session_get hst (VRef inst) (st_heap s) (st_world s)),
          (session_get hst (VRef inst) (st_heap s) (st_world s)).2)
  /\ forall strict val,
       Put hst (S (S n)) strict (VRef ctx) "session" val s
       = Some (after_host (emitted s (EvSessionSet (VRef inst) val))
                 (session_set hst (VRef inst) val (st_heap s) (st_world s)),
               (session_set hst (VRef inst) val (st_heap s) (st_world s)).2).
Proof.
  intros [(set & c & Hcs) (c' & Hsess)] Hslot.
  assert (Get hst (S n) (VRef ctx) (PSym CONTEXT_SESSION) s
          = Some (s, Normal (VRef inst))) as Hget.
  { rewrite (Get_accessor hst n ctx _ _ _ _ s Hcs). cbn [run_fcode].
    by apply getter_cached. }
  split.
  - rewrite (Get_accessor hst (S n) ctx _ _ _ _ s Hsess). cbn [run_fcode].
    unfold session_getter. erewrite bind_Normal by exact Hget.
    apply call_session_get_eq.
  - intros strict val.
    rewrite (Put_setter hst (S n) strict ctx _ _ _ _ val s Hsess).
    cbn [run_fcode nth]. unfold session_setter.
    unfold bind at 1 2. rewrite Hget. unfold bind at 1.
    rewrite call_session_set_eq. unfold ret.
    by destruct (session_set hst (VRef inst) val (st_heap s) (st_world s)).2
      as [[]|e].
Qed.

(** X11. On a context that was never extended the middleware fails at
    once: when [ctx] sees no [CONTEXT_SESSION], the read gives [undefined],
    [sess.store] throws a TypeError, and neither the downstream chain nor
    commit is called. *)
Theorem session_mw_without_accessor fuel opts ctx next (s : state W) :
  lookup_prop (st_heap s) ctx (PSym CONTEXT_SESSION) = None ->
  session_mw hst fuel opts (VRef ctx) next s = Some (s, Throw not_an_object).
Proof.
  intros Hcs. unfold session_mw, session_middleware_body.
  erewrite bind_Normal by (by apply Get_missing).
  erewrite bind_Throw; [done|]. by apply Get_nullish.
Qed.

(** X12. The generator of line 108 holds the options object, not the
    prefix: it reads [opts.prefix] each time it is called.  After
    formatOpts has installed it for a prefix, assigning another string to
    [opts.prefix] makes the identifiers start with that string. *)
Theorem genid_reads_prefix_when_called fuel l h (w : W) tr :
  plain_heap h -> is_Some (h !! l) -> shape_ok h (VRef l) = true ->
  truthy (read h (VRef l) "genid") = false ->
  truthy (read h (VRef l) "prefix") = true ->
  exists s',
    formatOpts hst fuel (VRef l) (State h w tr) = Some (s', Normal (VRef l))
    /\ forall n this args w1 tr1 p,
         Call hst (S n) (read (st_heap s') (VRef l) "genid") this args
           (State (set_own (st_heap s') l "prefix" (Data (VStr p))) w1 tr1)
         = Some (State (set_own (st_heap s') l "prefix" (Data (VStr p)))
                   (uuid_v4 hst w1).1 tr1,
                 Normal (VStr (p ++ (uuid_v4 hst w1).2))).
Proof.
  intros Hp Hl Hok Hg Hpre.
  destruct (formatOpts_plain hst fuel l h w tr Hp Hl)
    as (h1 & s' & c & E & Hp1 & Hl1 & Hw & _ & _ & [(Hbad & _)|(_ & -> & Eg)]);
    [congruence|].
  exists s'. split; [done|].
  destruct (format_genid_plain hst fuel l h1 w tr Hp1 Hl1)
    as (h2 & Eg' & Hp2 & Hlk & Hkind & Rg & Hclos).
  rewrite Eg in Eg'. injection Eg' as ->. cbn [st_heap].
  rewrite !(writes_only_read _ _ _ _ "genid" Hw) in Rg, Hclos by by_compute.
  rewrite !(writes_only_read _ _ _ _ "prefix" Hw) in Rg, Hclos by by_compute.
  rewrite Hg, Hpre in Rg. specialize (Hclos Hg Hpre).
  intros n this args w1 tr1 p. rewrite Rg.
  assert (is_Some (h2 !! l)) as Hl2.
  { eapply kind_is_Some; [|exact Hl1]. by apply Hkind. }
  apply (Call_genid_prefixed hst n _ l p).
  - by apply plain_heap_set_own.
  - by rewrite (proj1 (set_own_lookup _ _ _ _ _)).
  - by apply read_set_own_eq.
Qed.

End RequestExtras.

Lemma session_property_delegates_witness :
  installed (st_heap (demo_loaded saving_host [])) ctx_loc (VRef opts_loc)
  /\ Get saving_host 2 (VRef ctx_loc) "session" (demo_loaded saving_host [])
     = Some (emitted (demo_loaded saving_host []) (EvSessionGet (VRef sess_loc)),
             Normal VUndefined)
  /\ Put saving_host 2 true (VRef ctx_loc) "session" VNull
       (demo_loaded saving_host [])
     = Some (emitted (demo_loaded saving_host [])
               (EvSessionSet (VRef sess_loc) VNull),
             Normal tt).
Proof.
  assert (installed (st_heap (demo_loaded saving_host [])) ctx_loc
            (VRef opts_loc)) as Hi.
  { split; [exists None, false|exists true]; by vm_compute. }
  destruct (session_property_delegates saving_host 0 ctx_loc (VRef opts_loc)
              sess_loc (demo_loaded saving_host []) Hi ltac:(by vm_compute))
    as [Hget Hput].
  split; [exact Hi|]. split; [exact Hget|]. exact (Hput true VNull).
Defined.

Lemma session_mw_without_accessor_witness :
  lookup_prop (demo_heap []) ctx_loc (PSym CONTEXT_SESSION) = None
  /\ session_mw saving_host 1 (VRef opts_loc) (VRef ctx_loc) (VRef next_loc)
       (demo_state [])
     = Some (demo_state [], Throw not_an_object).
Proof.
  assert (lookup_prop (demo_heap []) ctx_loc (PSym CONTEXT_SESSION) = None)
    as Hcs by (by vm_compute).
  split; [exact Hcs|].
  exact (session_mw_without_accessor saving_host 1 (VRef opts_loc) ctx_loc
           (VRef next_loc) (demo_state []) Hcs).
Defined.

Lemma genid_reads_prefix_when_called_witness :
  plain_heap (demo_heap prefix_options)
  /\ exists s',
       formatOpts saving_host 0 (VRef opts_loc) (demo_state prefix_options)
       = Some (s', Normal (VRef opts_loc))
       /\ Call saving_host 1 (read (st_heap s') (VRef opts_loc) "genid")
            VUndefined []
            (State (set_own (st_heap s') opts_loc "prefix" (Data (VStr "web:")))
               [] [])
          = Some (State (set_own (st_heap s') opts_loc "prefix"
                           (Data (VStr "web:"))) [] [],
                  Normal (VStr "web:6f1d3c8e-2b7a-4e15-9c40-a1b2c3d4e5f6")).
Proof.
  assert (plain_heap (demo_heap prefix_options)) as Hp by by_compute.
  split; [exact Hp|].
  destruct (genid_reads_prefix_when_called saving_host 0 opts_loc
              (demo_heap prefix_options) [] [] Hp
              ltac:(by vm_compute; eexists) ltac:(by vm_compute)
              ltac:(by vm_compute) ltac:(by vm_compute))
    as (s' & E & Hcall).
  exists s'. split; [exact E|].
  exact (Hcall 0 VUndefined [] [] [] "web:").
Defined.
(** * Setup without options *)

Section MissingOptions.

Context {W : Type} (hst : host W).

Lemma shape_ok_unset (h : heap) l :
  read h (VRef l) "store" = VUndefined ->
  read h (VRef l) "externalKey" = VUndefined ->
  read h (VRef l) "ContextStore" = VUndefined ->
  shape_ok h (VRef l) = true.
Proof.
  intros H1 H2 H3.
  unfold shape_ok, store_ok, externalKey_ok, ContextStore_ok.
  by rewrite H1, H2, H3.
Qed.

(** X13. Setup without options: when [opts] is missing or falsy,
    formatOpts returns a new object that holds the whole default
    configuration, [key] ["koa:sess"], the four flags [true], [maxAge]
    [undefined], the codec of lib/util and [uuid] as generator, and it
    changes no object that was there before. *)
Theorem formatOpts_missing_options fuel opts h (w : W) tr :
  plain_heap h -> truthy opts = false ->
  exists h',
    formatOpts hst fuel opts (State h w tr)
    = Some (State h' w tr, Normal (VRef (fresh_loc h)))
    /\ h !! fresh_loc h = None
    /\ read h' (VRef (fresh_loc h)) "key" = VStr "koa:sess"
    /\ (forall k : string, k ∈ flag_options ->
          read h' (VRef (fresh_loc h)) k = VBool true)
    /\ read h' (VRef (fresh_loc h)) "maxAge" = VUndefined
    /\ read h' (VRef (fresh_loc h)) "encode" = VRef util_encode_loc
    /\ read h' (VRef (fresh_loc h)) "decode" = VRef util_decode_loc
    /\ read h' (VRef (fresh_loc h)) "genid" = VRef uuid_loc
    /\ forall l' k, is_Some (h !! l') -> own h' l' k = own h l' k.
Proof.
  intros Hp Ht. rewrite formatOpts_falsy by done.
  set (l := fresh_loc h). set (h0 := (alloc h empty_object).1).
  assert (plain_heap h0) as Hp0 by (by apply plain_heap_alloc).
  assert (is_Some (h0 !! l)) as Hl0
    by (unfold h0, l; simpl; by rewrite lookup_insert_eq).
  assert (forall k, read h0 (VRef l) k = VUndefined) as R0
    by (intros k; apply read_alloc_fresh).
  assert (shape_ok h0 (VRef l) = true) as Hok by (by apply shape_ok_unset).
  destruct (formatOpts_prefix_values hst fuel l h0 w tr Hp0 Hl0)
    as (h1 & E & Hp1 & Hl1 & _ & Rm & Re & Rd & Hw & Rk & Rf).
  destruct (shape_checks_plain hst fuel l h1 w tr Hp1) as (c1 & Ec & Hpass & _).
  rewrite (shape_ok_writes_only h0 h1 _ Hw) in Hpass.
  rewrite (Hpass Hok) in Ec.
  destruct (format_genid_plain hst fuel l h1 w tr Hp1 Hl1)
    as (h2 & Eg & _ & Hlk & _ & Rg & _).
  assert (formatOpts hst fuel (VRef l) (State h0 w tr)
          = Some (State h2 w tr, Normal (VRef l))) as Efull.
  { rewrite E. revert Ec. unfold bind.
    destruct (check_store hst fuel (VRef l) _) as [[s1 [[]|e1]]|]; try done.
    destruct (check_externalKey hst fuel (VRef l) s1) as [[s2 [[]|e2]]|];
      try done.
    intros ->. by rewrite Eg. }
  destruct (frames_formatOpts hst l fuel (State h0 w tr) _ _ Hp0 Efull)
    as (_ & _ & _ & _ & Hown).
  assert (forall k : string, k <> "genid" ->
            read h2 (VRef l) k = read h1 (VRef l) k) as Rrest.
  { intros k Hk. unfold read. rewrite Hlk; [done|done|]. by intros [= ->]. }
  exists h2. split; [exact Efull|]. split; [apply fresh_loc_None|].
  rewrite R0 in Rk, Rm, Re, Rd. cbn [truthy] in Rk.
  unfold has_property in Rm.
  split; [by rewrite Rrest|]. split.
  { intros k Hk. rewrite Rrest.
    - rewrite (Rf k Hk), R0. done.
    - unfold flag_options in Hk.
      repeat (apply elem_of_cons in Hk as [->|Hk]); try done.
      by apply elem_of_nil in Hk. }
  split.
  { rewrite Rrest by done. rewrite Rm.
    assert (lookup_prop h0 l "maxAge" = None) as ->.
    { specialize (R0 "maxAge"). unfold read, lookup_prop in *.
      unfold h0, l in *. simpl in *. rewrite lookup_insert_eq in *.
      simpl. unfold own. by rewrite lookup_insert_eq. }
    by rewrite bool_decide_eq_false_2 by (by intros [? ?]). }
  split; [by rewrite Rrest, Re|]. split; [by rewrite Rrest, Rd|].
  split.
  { rewrite Rg. by rewrite !(writes_only_read _ _ _ _ _ Hw), !R0 by by_compute. }
  intros l' k Hl'. cbn [st_heap] in Hown.
  assert (l' <> l) as Hne
    by (intros ->; unfold l in Hl'; rewrite fresh_loc_None in Hl'; by destruct Hl').
  rewrite Hown; [|unfold h0; simpl; by rewrite lookup_insert_ne|by left].
  unfold h0, empty_object. apply own_alloc_empty.
Qed.

End MissingOptions.

Lemma formatOpts_missing_options_witness :
  plain_heap (demo_heap [])
  /\ exists h',
       formatOpts saving_host 0 VUndefined (demo_state [])
       = Some (State h' [] [], Normal (VRef (fresh_loc (demo_heap []))))
       /\ read h' (VRef (fresh_loc (demo_heap []))) "key" = VStr "koa:sess"
       /\ read h' (VRef (fresh_loc (demo_heap []))) "genid" = VRef uuid_loc
       /\ own h' opts_loc "key" = own (demo_heap []) opts_loc "key".
Proof.
  assert (plain_heap (demo_heap [])) as Hp by by_compute.
  split; [exact Hp|].
  destruct (formatOpts_missing_options saving_host 0 VUndefined (demo_heap [])
              [] [] Hp eq_refl)
    as (h' & E & _ & Hk & _ & _ & _ & _ & Hg & Hown).
  exists h'. split; [exact E|]. split; [exact Hk|]. split; [exact Hg|].
  apply Hown. by vm_compute; eexists.
Defined.
(** * Setting up twice with the same options *)

Section Idempotence.

Context {W : Type} (hst : host W).








Lemma read_is_Some (h : heap) v k :
  read h v k <> VUndefined -> exists l, v = VRef l /\ is_Some (h !! l).
Proof.
  destruct v as [| | | | |l]; try done. intros Hr. exists l. split; [done|].
  unfold read in Hr. destruct (lookup_prop h l k) eqn:Hlk; [|done].
  by eapply lookup_prop_is_Some.
Qed.

Lemma options_frame_read (h h' : heap) v k :
  options_frame h h' -> k ∉ option_keys ->
  read h v k <> VUndefined -> read h' v k = read h v k.
Proof.
  intros [_ Hlk] Hk Hr. destruct (read_is_Some h v k Hr) as (l & -> & Hl).
  unfold read. by rewrite Hlk.
Qed.


Lemma options_frame_truthy_read (h h' : heap) o (k : string) :
  options_frame h h' -> PStr k ∉ option_keys ->
  truthy (read h o k) = true -> read h' o k = read h o k.
Proof.
  intros Hf Hk Ht. apply options_frame_read; [done..|].
  intros Hu. by rewrite Hu in Ht.
Qed.


End Idempotence.
Section IdempotenceTheorem.

Context {W : Type} (hst : host W).






End IdempotenceTheorem.

Section ContextlessApp.

Context {W : Type} (hst : host W).

(** X7. An application without a context: when [app] has a function [use]
    but [app.context] is no object, [session(opts, app)] throws a
    TypeError.  It does so after formatOpts has run: the state it leaves is
    the one formatOpts returned in, with the defaults written into the
    options and nothing installed. *)
Theorem session_rejects_app_without_context fuel l app h (w : W) tr :
  plain_heap h -> is_Some (h !! l) ->
  uses h (VRef l) = false -> uses h app = true ->
  shape_ok h (VRef l) = true ->
  (forall c, read h app "context" <> VRef c) ->
  exists s' msg,
    session hst fuel (VRef l) app (State h w tr)
    = Some (s', Throw (TypeError msg))
    /\ formatOpts hst fuel (VRef l) (State h w tr) = Some (s', Normal (VRef l)).
Proof.
  intros Hp Hl Hul Hua Hok Hctx.
  assert (exists s1, formatOpts hst fuel (VRef l) (State h w tr)
                     = Some (s1, Normal (VRef l))) as [s1 E1].
  { destruct (formatOpts_plain hst fuel l h w tr Hp Hl)
      as (h0 & s0 & c0 & E0 & _ & _ & _ & _ & _ & [(Hbad & _)|(_ & -> & _)]);
      [congruence|by exists s0]. }
  destruct (frames_formatOpts hst l fuel (State h w tr) s1 _ Hp E1)
    as (Hp1 & Hw1 & Ht1 & _ & _).
  destruct s1 as [h1 w1 tr1]. cbn [st_heap st_world st_trace] in *. subst w1 tr1.
  assert (exists a, app = VRef a /\ is_Some (h !! a)) as (a & -> & Ha).
  { unfold uses in Hua. apply andb_true_iff in Hua as [_ Hf].
    apply (read_is_Some h app "use"). intros Hu. by rewrite Hu in Hf. }
  assert (read h1 (VRef a) "context" = read h (VRef a) "context") as Hsame.
  { unfold read.
    pose proof (formatOpts_lookup_frame hst fuel l h w tr _ _ a "context" Hp Hl
                  Ha ltac:(by_compute) E1) as Hlk.
    cbn [st_heap] in Hlk. by rewrite Hlk. }
  destruct (extendContext_rejects_non_object (read h (VRef a) "context")
              (VRef l) (State h1 w tr) Hctx) as [msg Ee].
  exists (State h1 w tr), msg. split; [|done].
  unfold session.
  rewrite (bind_Normal (has_use hst fuel (VRef l)) _ _ _ _
             (has_use_plain hst fuel (VRef l) h w tr Hp)).
  rewrite Hul. cbv iota.
  rewrite (bind_Normal (has_use hst fuel (VRef a)) _ _ _ _
             (has_use_plain hst fuel (VRef a) h w tr Hp)).
  rewrite Hua. cbn [negb].
  erewrite bind_Normal by exact E1.
  erewrite bind_Normal by (by apply Get_plain). rewrite Hsame.
  by erewrite bind_Throw by exact Ee.
Qed.

End ContextlessApp.

Lemma session_rejects_app_without_context_witness :
  plain_heap contextless_heap
  /\ read contextless_heap (VRef app_loc) "context" = VUndefined
  /\ exists s' msg,
       session saving_host 0 (VRef opts_loc) (VRef app_loc)
         (State contextless_heap [] [])
       = Some (s', Throw (TypeError msg))
       /\ formatOpts saving_host 0 (VRef opts_loc) (State contextless_heap [] [])
          = Some (s', Normal (VRef opts_loc)).
Proof.
  assert (plain_heap contextless_heap) as Hp by by_compute.
  assert (read contextless_heap (VRef app_loc) "context" = VUndefined) as Hc
    by (by vm_compute).
  split; [exact Hp|]. split; [exact Hc|].
  apply (session_rejects_app_without_context saving_host 0 opts_loc
           (VRef app_loc) contextless_heap [] [] Hp).
  - by vm_compute; eexists.
  - by vm_compute.
  - by vm_compute.
  - by vm_compute.
  - intros c. rewrite Hc. discriminate.
Defined.
